(** * Strength envelopes: the notebook [brittle_faults_p2]

    The repository is a set of Jupyter notebooks.  The notebook kept in
    [notebooks/brittle_faults_p2.ipynb] has four cells: a title cell, a
    setup code cell, a markdown cell that states the Hubbert-Rubey law in
    two forms, and a code cell that prints the library versions.

    The definitions come first:
    - [Formulas]: the laws the markdown cell states, over the real numbers;
    - [Kernel], [Cells], [Notebook]: the state of a kernel, the execution
      of code cells as a state transformer over it, and the document;
    - [Installed]: a sample installation of the libraries;
    - [Analysis]: the names a run reads, and the properties asked of a run;
    - [Curve]: the element-wise evaluation of a formula over an axis;
    - [Effects]: what a cell may change in the kernel;
    - [Requests]: the calls the cells make into the installation.
    The facts follow, module by module. *)

From Stdlib Require Import Reals Lra String Ascii List.
From stdpp Require Import gmap strings list fin_maps.

(** ** The laws of the markdown cell *)

Module Formulas.
Local Open Scope R_scope.

(** [tau = C_0 + mu sigma_n]: the linear friction law, the first equality
    of the cell applies it to the effective normal stress. *)
Definition coulomb (C_0 mu sigma_n : R) : R := C_0 + mu * sigma_n.

(** [sigma_n^eff]: "the fault-normal stress taking into account the fluid
    pore pressure". *)
Definition effective_normal_stress (sigma_n P_f : R) : R := sigma_n - P_f.

(** [tau = C_0 + mu sigma_n^eff = C_0 + mu (sigma_n - P_f)]. *)
Definition hubbert_rubey_eff (C_0 mu sigma_n P_f : R) : R :=
  C_0 + mu * (sigma_n - P_f).

(** [lambda = P_f / sigma_L]. *)
Definition pore_pressure_ratio (P_f sigma_L : R) : R := P_f / sigma_L.

(** [tau = C_0 + mu sigma_n (1 - lambda)]. *)
Definition hubbert_rubey (C_0 mu sigma_n lambda : R) : R :=
  C_0 + mu * sigma_n * (1 - lambda).

End Formulas.

(** ** The state of a kernel and the libraries it runs against *)

Module Kernel.
Local Open Scope string_scope.

(** A Python exception: its class and its message. *)
Record exn := Exn { exn_class : string; exn_message : string }.

(** The two functions the code cells call. *)
Inductive func :=
| FPrint       (* the builtin print *)
| FStyleUse.   (* matplotlib.style.use *)

(** The objects a name or an expression of the notebooks can denote. *)
Inductive value :=
| VNone
| VStr (s : string)
| VNum (x : R)
| VArray (xs : list R)
| VModule (name : string)
| VRcParams                 (* matplotlib.rcParams, one object per process *)
| VFunction (f : func).

(** A chart on the plotting canvas: its curves and its text annotations. *)
Record figure := Figure {
  curves : list (list R * list R);
  annotations : list string }.

(** What a running kernel holds: the global namespace the cells share,
    the entries of matplotlib's process-wide [rcParams] set so far (over
    the defaults of the installation), the lines printed so far and the
    plotting canvas. *)
Record kernel := MkKernel {
  ns : gmap string value;
  rcParams : gmap string string;
  stdout : list string;
  canvas : list figure }.

Definition fresh : kernel :=
  {| ns := ∅; rcParams := ∅; stdout := []; canvas := [] |}.

(** The installed libraries are not part of the repository: what the cells
    ask of them is a parameter.
    - [find_module m]: [None] when [import m] succeeds, the exception it
      raises otherwise;
    - [module_attr m a]: the attribute [a] of the module [m];
    - [style_settings s]: the settings [matplotlib.style.use s] applies;
    - [rc_validate k v]: the check [rcParams[k] = v] runs before it
      stores, with the stored value;
    - [str_of v]: the text [print] writes for an object that is not a
      string. *)
Record library := Library {
  find_module : string -> option exn;
  module_attr : string -> string -> exn + value;
  style_settings : value -> exn + list (string * string);
  rc_validate : string -> string -> exn + string;
  str_of : value -> string }.

(** How a cell, a statement or an expression ends: normally, with an
    exception, or on an operation this model gives no meaning to. *)
Inductive status (A : Type) :=
| Done (a : A)
| Raised (e : exn)
| Unsupported.
Arguments Done {A} a.
Arguments Raised {A} e.
Arguments Unsupported {A}.

(** Computations on the kernel: the state is returned in every case, what
    a cell did before it failed stays done. *)
Definition M (A : Type) : Type := kernel -> kernel * status A.

Definition ret {A} (a : A) : M A := fun k => (k, Done a).
Definition raise {A} (e : exn) : M A := fun k => (k, Raised e).
Definition unsupported {A} : M A := fun k => (k, Unsupported).
Definition bind {A B} (m : M A) (f : A -> M B) : M B :=
  fun k =>
    match m k with
    | (k', Done a) => f a k'
    | (k', Raised e) => (k', Raised e)
    | (k', Unsupported) => (k', Unsupported)
    end.
Definition lift {A} (r : exn + A) : M A :=
  match r with inl e => raise e | inr a => ret a end.

Notation "'let*' x ':=' m 'in' f" := (bind m (fun x => f))
  (at level 10, x pattern, m at level 100, f at level 200).

Definition NameError (x : string) : exn :=
  Exn "NameError" ("name '" +:+ x +:+ "' is not defined").
Definition TypeError (msg : string) : exn := Exn "TypeError" msg.

(** Builtins are looked up after the global namespace. *)
Definition builtins (x : string) : option value :=
  if String.eqb x "print" then Some (VFunction FPrint) else None.

Definition lookup_name (x : string) : M value :=
  fun k =>
    match ns k !! x with
    | Some v => (k, Done v)
    | None =>
        match builtins x with
        | Some v => (k, Done v)
        | None => (k, Raised (NameError x))
        end
    end.

Definition bind_name (x : string) (v : value) : M unit :=
  fun k => (MkKernel (<[x := v]> (ns k)) (rcParams k) (stdout k) (canvas k),
            Done tt).

Definition write_line (l : string) : M unit :=
  fun k => (MkKernel (ns k) (rcParams k) (stdout k ++ [l]) (canvas k), Done tt).

(** [rcParams[key] = val]: validate, then store. *)
Definition rc_setitem (lib : library) (key val : string) : M unit :=
  fun k =>
    match rc_validate lib key val with
    | inl e => (k, Raised e)
    | inr v =>
        (MkKernel (ns k) (<[key := v]> (rcParams k)) (stdout k) (canvas k),
         Done tt)
    end.

(** [rcParams.update(settings)]: one item assignment per setting. *)
Fixpoint rc_update (lib : library) (settings : list (string * string)) : M unit :=
  match settings with
  | [] => ret tt
  | (key, val) :: rest => let* _ := rc_setitem lib key val in rc_update lib rest
  end.

Definition type_name (v : value) : string :=
  match v with
  | VNone => "NoneType"
  | VStr _ => "str"
  | VNum _ => "float"
  | VArray _ => "numpy.ndarray"
  | VModule _ => "module"
  | VRcParams => "RcParams"
  | VFunction FPrint => "builtin_function_or_method"
  | VFunction FStyleUse => "function"
  end.

Definition to_str (lib : library) (v : value) : string :=
  match v with VStr s => s | _ => str_of lib v end.

Definition AttributeError_on (type a : string) : exn :=
  Exn "AttributeError"
      ("'" +:+ type +:+ "' object has no attribute '" +:+ a +:+ "'").

(** The attributes the cells read.  Only a module can have one of them:
    no string, number, array, function, [None] or [rcParams] does. *)
Definition module_only : list string :=
  ["style"; "use"; "rcParams"; "version"; "__version__"].

(** [v.a]: a module answers for its attributes; an object of another kind
    has none of the attributes the cells read, and this model gives no
    meaning to its other attributes. *)
Definition getattr (lib : library) (v : value) (a : string) : M value :=
  match v with
  | VModule m => lift (module_attr lib m a)
  | _ =>
      if existsb (String.eqb a) module_only
      then raise (AttributeError_on (type_name v) a)
      else unsupported
  end.

(** [print] writes its arguments on one line, separated by a space;
    [matplotlib.style.use] updates [rcParams] with the settings of the
    style. *)
Definition call (lib : library) (f : value) (args : list value) : M value :=
  match f with
  | VFunction FPrint =>
      let* _ := write_line (String.concat " " (map (to_str lib) args)) in
      ret VNone
  | VFunction FStyleUse =>
      match args with
      | [s] =>
          let* settings := lift (style_settings lib s) in
          let* _ := rc_update lib settings in
          ret VNone
      | _ => unsupported
      end
  | _ => raise (TypeError ("'" +:+ type_name f +:+ "' object is not callable"))
  end.

End Kernel.

(** ** Code cells: syntax and execution *)

Module Cells.
Import Kernel.
Local Open Scope string_scope.

(** The expression forms of the code cells: a name, a string literal, an
    attribute reference and a call. *)
#[local] Set Warnings "-register-all".
Inductive expr :=
| EName (x : string)
| EStr (s : string)
| EAttr (e : expr) (a : string)
| ECall (f : expr) (args : list expr).

(** The statement forms of the code cells: [import m], [import m as x],
    an item assignment [obj[key] = val] and an expression statement.  The
    cells hold no other statement: no try, no with, no def. *)
Inductive stmt :=
| SImport (m : string) (alias : option string)
| SSetItem (obj key val : expr)
| SExpr (e : expr).

(** A cell of the document. *)
Inductive cell :=
| Markdown (id : string)
| Code (id : string) (body : list stmt).

Definition notebook := list cell.

(** The name [import a.b.c] binds: the top-level package [a]. *)
Fixpoint top_package (m : string) : string :=
  match m with
  | EmptyString => EmptyString
  | String c rest =>
      if Ascii.eqb c "."%char then EmptyString else String c (top_package rest)
  end.

(** [import m] binds the top-level package, [import m as x] binds [x] to
    the module [m] itself. *)
Definition import_target (m : string) (alias : option string) : string * value :=
  match alias with
  | Some x => (x, VModule m)
  | None => (top_package m, VModule (top_package m))
  end.

Fixpoint eval (lib : library) (e : expr) : M value :=
  match e with
  | EName x => lookup_name x
  | EStr s => ret (VStr s)
  | EAttr e' a => let* v := eval lib e' in getattr lib v a
  | ECall f args =>
      let* fv := eval lib f in
      let* vs :=
        (fix eval_args (l : list expr) : M (list value) :=
           match l with
           | [] => ret []
           | a :: l' =>
               let* v := eval lib a in
               let* vs := eval_args l' in
               ret (v :: vs)
           end) args in
      call lib fv vs
  end.

(** An item assignment evaluates its right-hand side first, then the
    object, then the key.  Only [rcParams] and arrays take an item
    assignment; this model gives a meaning to that of [rcParams] with a
    string key and a string value. *)
Definition exec (lib : library) (s : stmt) : M unit :=
  match s with
  | SImport m alias =>
      match find_module lib m with
      | Some e => raise e
      | None => bind_name (import_target m alias).1 (import_target m alias).2
      end
  | SSetItem obj key val =>
      let* v := eval lib val in
      let* o := eval lib obj in
      let* i := eval lib key in
      match o with
      | VRcParams =>
          match i, v with
          | VStr i', VStr v' => rc_setitem lib i' v'
          | _, _ => unsupported
          end
      | VArray _ => unsupported
      | _ =>
          raise (TypeError ("'" +:+ type_name o +:+
                            "' object does not support item assignment"))
      end
  | SExpr e => let* _ := eval lib e in ret tt
  end.

(** The statements of a cell run in order and stop at the first one that
    does not complete. *)
Fixpoint exec_body (lib : library) (body : list stmt) : M unit :=
  match body with
  | [] => ret tt
  | s :: rest => let* _ := exec lib s in exec_body lib rest
  end.

Definition run_cell (lib : library) (c : cell) : M unit :=
  match c with
  | Markdown _ => ret tt
  | Code _ body => exec_body lib body
  end.

(** Run all: the cells in document order, until one does not complete. *)
Fixpoint run (lib : library) (nb : notebook) : M unit :=
  match nb with
  | [] => ret tt
  | c :: rest => let* _ := run_cell lib c in run lib rest
  end.

(** The lines a run wrote: what [stdout] holds beyond what it held. *)
Definition printed (before after : kernel) : list string :=
  drop (length (stdout before)) (stdout after).

End Cells.

(** ** The notebook *)

Module Notebook.
Import Kernel Cells.
Local Open Scope string_scope.

(** [mpl.rcParams[key] = val] *)
Definition set_rc (key val : string) : stmt :=
  SSetItem (EAttr (EName "mpl") "rcParams") (EStr key) (EStr val).

(** [print(label, m.attr)] *)
Definition print_version (label m attr : string) : stmt :=
  SExpr (ECall (EName "print") [EStr label; EAttr (EName m) attr]).

(** The first code cell. *)
Definition setup_cell : cell :=
  Code "ec05b3eb-1b64-45e1-861b-c60d8f0018be"
    [ SImport "numpy" (Some "np");
      SImport "pandas" (Some "pd");
      SImport "matplotlib.pyplot" (Some "plt");
      SImport "matplotlib" (Some "mpl");
      SExpr (ECall (EAttr (EAttr (EName "mpl") "style") "use")
                   [EStr "fivethirtyeight"]);
      set_rc "figure.facecolor" "white";
      set_rc "axes.facecolor" "white";
      set_rc "axes.edgecolor" "white" ].

(** The last code cell. *)
Definition versions_cell : cell :=
  Code "348cf7c3-d402-45b5-a2b0-3913b7009501"
    [ SImport "sys" None;
      SExpr (ECall (EName "print") [EStr "Notebook tested using:"]);
      print_version "Python" "sys" "version";
      print_version "Numpy" "np" "__version__";
      print_version "Matplotlib" "mpl" "__version__";
      print_version "Pandas" "pd" "__version__" ].

Definition brittle_faults_p2 : notebook :=
  [ Markdown "da3e2ddc-460d-41dd-b422-43858c7f6939";
    setup_cell;
    Markdown "a14a7d59-150e-46e6-af4a-bc3772c92763";
    versions_cell ].

End Notebook.

(** ** A sample installation

    One installation the notebook runs against: the five modules it
    imports are found, the attributes it reads are there, the style it
    names has three settings, and every [rcParams] assignment is accepted
    as it is. *)

Module Installed.
Import Kernel.
Local Open Scope string_scope.

Definition ModuleNotFoundError (m : string) : exn :=
  Exn "ModuleNotFoundError" ("No module named '" +:+ m +:+ "'").
Definition AttributeError (m a : string) : exn :=
  Exn "AttributeError" ("module '" +:+ m +:+ "' has no attribute '" +:+ a +:+ "'").
Definition OSError (msg : string) : exn := Exn "OSError" msg.

Definition modules : list string :=
  ["numpy"; "pandas"; "matplotlib"; "matplotlib.pyplot"; "sys"].

Definition attributes : list (string * string * value) :=
  [ ("sys", "version", VStr "3.9.4");
    ("numpy", "__version__", VStr "1.20.1");
    ("pandas", "__version__", VStr "1.2.4");
    ("matplotlib", "__version__", VStr "3.3.4");
    ("matplotlib", "style", VModule "matplotlib.style");
    ("matplotlib", "rcParams", VRcParams);
    ("matplotlib.style", "use", VFunction FStyleUse) ].

Fixpoint assoc (m a : string) (l : list (string * string * value)) : option value :=
  match l with
  | [] => None
  | (m', a', v) :: rest =>
      if String.eqb m m' && String.eqb a a' then Some v else assoc m a rest
  end.

Definition fivethirtyeight : list (string * string) :=
  [ ("lines.linewidth", "4");
    ("axes.facecolor", "f0f0f0");
    ("figure.facecolor", "f0f0f0") ].

Definition installation : library :=
  {| find_module m :=
       if existsb (String.eqb m) modules then None
       else Some (ModuleNotFoundError m);
     module_attr m a :=
       match assoc m a attributes with
       | Some v => inr v
       | None => inl (AttributeError m a)
       end;
     style_settings s :=
       match s with
       | VStr "fivethirtyeight" => inr fivethirtyeight
       | _ => inl (OSError "style not found")
       end;
     rc_validate _ v := inr v;
     str_of _ := "<object>" |}.

(** [m] is the package [package] or a module under it. *)
Definition under (package m : string) : bool :=
  String.eqb m package || String.prefix (package +:+ ".") m.

(** The same installation with one package removed: the import of the
    package, and of any module under it, fails for the package. *)
Definition without (missing : string) (lib : library) : library :=
  {| find_module m :=
       if under missing m then Some (ModuleNotFoundError missing)
       else find_module lib m;
     module_attr := module_attr lib;
     style_settings := style_settings lib;
     rc_validate := rc_validate lib;
     str_of := str_of lib |}.

End Installed.

(** ** What a run depends on, and what the description asks of it *)

Module Analysis.
Import Kernel Cells.
Local Open Scope string_scope.

(** The names an expression reads. *)
Fixpoint names_of (e : expr) : list string :=
  match e with
  | EName x => [x]
  | EStr _ => []
  | EAttr e' _ => names_of e'
  | ECall f args => names_of f ++ flat_map names_of args
  end.

Definition reads_of (s : stmt) : list string :=
  match s with
  | SImport _ _ => []
  | SSetItem obj key val => names_of val ++ names_of obj ++ names_of key
  | SExpr e => names_of e
  end.

Definition binds_of (s : stmt) : list string :=
  match s with
  | SImport m alias => [(import_target m alias).1]
  | _ => []
  end.

(** The names a statement list reads before it binds them. *)
Fixpoint free_names (body : list stmt) : list string :=
  match body with
  | [] => []
  | s :: rest =>
      reads_of s ++ filter (fun x => x ∉ binds_of s) (free_names rest)
  end.

Definition body_of (c : cell) : list stmt :=
  match c with
  | Markdown _ => []
  | Code _ body => body
  end.

(** The statements of a document, in run order. *)
Definition statements (nb : notebook) : list stmt := flat_map body_of nb.

(** The description of a notebook run: it "imports a numeric library, a
    plotting library, and a dataframe library, evaluates closed-form
    algebraic equations over a range of depth/stress values, and renders a
    chart with annotated text". *)
Definition imports (k : kernel) (m : string) : Prop :=
  exists x, ns k !! x = Some (VModule m).

Definition holds_curve (k : kernel) : Prop :=
  exists x xs, ns k !! x = Some (VArray xs).

Definition shows_annotated_chart (k : kernel) : Prop :=
  exists fig, fig ∈ canvas k /\ annotations fig <> [].

(** Two kernels agree on the names of [X]. *)
Definition agree (X : list string) (k1 k2 : kernel) : Prop :=
  forall x, x ∈ X -> ns k1 !! x = ns k2 !! x.

(** A computation that changes nothing in the kernel. *)
Definition silent {A} (m : M A) : Prop := forall k, (m k).1 = k.

(** A computation that reads the kernel through the names of [X] only:
    from two kernels that agree on [X] it ends the same way and writes the
    same lines, and when it completes the two kernels agree on [Y]. *)
Definition uniform {A} (X Y : list string) (m : M A) : Prop :=
  forall k1 k2, agree X k1 k2 ->
    (m k1).2 = (m k2).2 /\
    (forall a, (m k1).2 = Done a -> agree Y (m k1).1 (m k2).1) /\
    exists l, stdout (m k1).1 = (stdout k1 ++ l)%list /\
              stdout (m k2).1 = (stdout k2 ++ l)%list.

(** The exceptions a cell can end with by default: the ones a call into
    the installation raises, and the ones the interpreter raises for a
    name that is not bound, an object that is not callable or does not
    take an item assignment, or an attribute an object does not have. *)
Definition library_raises (lib : library) (e : exn) : Prop :=
  (exists m, find_module lib m = Some e) \/
  (exists m a, module_attr lib m a = inl e) \/
  (exists s, style_settings lib s = inl e) \/
  (exists key val, rc_validate lib key val = inl e).

Definition interpreter_raises (e : exn) : Prop :=
  (exists x, e = NameError x) \/ (exists msg, e = TypeError msg) \/
  (exists type a, e = AttributeError_on type a).

Definition default_error (lib : library) (e : exn) : Prop :=
  library_raises lib e \/ interpreter_raises e.

(** A computation that fails with default errors only. *)
Definition plain {A} (lib : library) (m : M A) : Prop :=
  forall k k' e, m k = (k', Raised e) -> default_error lib e.


(** The description, for the run of a document from a fresh kernel. *)
Definition as_described (lib : library) (nb : notebook) : Prop :=
  let r := run lib nb fresh in
  r.2 = Done tt /\
  imports r.1 "numpy" /\ imports r.1 "matplotlib.pyplot" /\
  imports r.1 "pandas" /\
  holds_curve r.1 /\ shows_annotated_chart r.1.


Definition independent_of (lib : library) (c1 c2 : cell) : Prop :=
  forall k, (run_cell lib c2 (run_cell lib c1 k).1).2 = (run_cell lib c2 k).2.


(** What the cells need of an installation to run to the end: the five
    modules are found, [mpl.style], [mpl.style.use] and [mpl.rcParams] are
    what matplotlib documents, the version attributes are strings, the
    style is known and its settings and the three colours pass the
    validation of [rcParams]. *)
Record supports (lib : library) : Prop := {
  found_numpy : find_module lib "numpy" = None;
  found_pandas : find_module lib "pandas" = None;
  found_pyplot : find_module lib "matplotlib.pyplot" = None;
  found_matplotlib : find_module lib "matplotlib" = None;
  found_sys : find_module lib "sys" = None;
  has_style :
    module_attr lib "matplotlib" "style" = inr (VModule "matplotlib.style");
  has_use :
    module_attr lib "matplotlib.style" "use" = inr (VFunction FStyleUse);
  has_rcParams : module_attr lib "matplotlib" "rcParams" = inr VRcParams;
  sys_version : exists v, module_attr lib "sys" "version" = inr (VStr v);
  numpy_version : exists v, module_attr lib "numpy" "__version__" = inr (VStr v);
  matplotlib_version :
    exists v, module_attr lib "matplotlib" "__version__" = inr (VStr v);
  pandas_version : exists v, module_attr lib "pandas" "__version__" = inr (VStr v);
  style_known :
    exists settings,
      style_settings lib (VStr "fivethirtyeight") = inr settings /\
      Forall (fun kv => exists v, rc_validate lib kv.1 kv.2 = inr v) settings;
  figure_facecolor_valid :
    exists v, rc_validate lib "figure.facecolor" "white" = inr v;
  axes_facecolor_valid :
    exists v, rc_validate lib "axes.facecolor" "white" = inr v;
  axes_edgecolor_valid :
    exists v, rc_validate lib "axes.edgecolor" "white" = inr v }.

End Analysis.

(** ** Evaluating a formula over an axis *)

Module Curve.
Import Kernel.
Local Open Scope string_scope.

(** Modelled from the spec: the cells that evaluate a formula over a range
    of depth or stress values belong to notebooks this development does
    not hold, so the evaluation follows the data model of the
    specification.  The scalar parameters are "plain floating-point
    constants supplied by the notebook author", here names bound to numbers
    in the kernel; the axis is "an ordered sequence" of values; the output
    is "computed element-wise from the input axis via the formula". *)
Inductive formula :=
| Axis
| Param (name : string)
| Const (c : R)
| Add (f g : formula)
| Sub (f g : formula)
| Mul (f g : formula)
| Div (f g : formula).

(** The names of the scalar parameters of a formula. *)
Fixpoint parameters (f : formula) : list string :=
  match f with
  | Axis | Const _ => []
  | Param p => [p]
  | Add f g | Sub f g | Mul f g | Div f g => parameters f ++ parameters g
  end.

(** Modelled from the spec: a scalar parameter is a name bound to a
    number; a name bound to anything else is outside the data model. *)
Definition number (p : string) : M R :=
  let* v := lookup_name p in
  match v with
  | VNum c => ret c
  | _ => unsupported
  end.

(** Modelled from the spec: the parameters are read once, left to right;
    the result is the function applied at each point of the axis. *)
Fixpoint pointwise (f : formula) : M (R -> R) :=
  match f with
  | Axis => ret (fun x => x)
  | Param p => let* c := number p in ret (fun _ => c)
  | Const c => ret (fun _ => c)
  | Add f g =>
      let* a := pointwise f in let* b := pointwise g in
      ret (fun x => a x + b x)%R
  | Sub f g =>
      let* a := pointwise f in let* b := pointwise g in
      ret (fun x => a x - b x)%R
  | Mul f g =>
      let* a := pointwise f in let* b := pointwise g in
      ret (fun x => a x * b x)%R
  | Div f g =>
      let* a := pointwise f in let* b := pointwise g in
      ret (fun x => a x / b x)%R
  end.

(** Modelled from the spec: the derived output sequence. *)
Definition evaluate (f : formula) (axis : list R) : M (list R) :=
  let* h := pointwise f in ret (map h axis).

(** The name [p] is bound to a number. *)
Definition numeric (k : kernel) (p : string) : bool :=
  match ns k !! p with
  | Some (VNum _) => true
  | _ => false
  end.

(** [tau = C_0 + mu sigma_n (1 - lambda)] over an axis of normal stresses,
    as the markdown cell of the notebook writes it. *)
Definition hubbert_rubey_formula : formula :=
  Add (Param "C_0")
      (Mul (Mul (Param "mu") Axis) (Sub (Const 1) (Param "lambda"))).

(** A kernel in which the three parameters of the law are set. *)
Definition with_parameters (C_0 mu lambda : R) (k : kernel) : kernel :=
  MkKernel (<["C_0" := VNum C_0]> (<["mu" := VNum mu]>
             (<["lambda" := VNum lambda]> (ns k))))
           (rcParams k) (stdout k) (canvas k).

End Curve.

(** ** What a cell changes *)

Module Effects.
Import Kernel Cells Analysis Notebook.
Local Open Scope string_scope.

(** From [k] to [k'] only the names of [X] may have changed; the canvas
    is the same and the printed lines of [k] are still there, first. *)
Definition within (X : list string) (k k' : kernel) : Prop :=
  (forall x, x ∉ X -> ns k' !! x = ns k !! x) /\
  canvas k' = canvas k /\
  stdout k `prefix_of` stdout k'.

(** A computation whose effect on the kernel stays inside a relation. *)
Definition keeps {A} (R : kernel -> kernel -> Prop) (m : M A) : Prop :=
  forall k, R k (m k).1.

(** The entries [rcParams.update(settings)] leaves: each setting is
    validated and stored in turn, up to the first one that is rejected. *)
Fixpoint styled (lib : library) (settings : list (string * string))
    (rc : gmap string string) : gmap string string :=
  match settings with
  | [] => rc
  | (key, val) :: rest =>
      match rc_validate lib key val with
      | inl _ => rc
      | inr v => styled lib rest (<[key := v]> rc)
      end
  end.

(** The value a style leaves under a key: that of its last setting for
    the key. *)
Fixpoint style_value (lib : library) (settings : list (string * string))
    (key : string) : option string :=
  match settings with
  | [] => None
  | (key', val) :: rest =>
      match style_value lib rest key with
      | Some v => Some v
      | None =>
          if decide (key' = key) then
            match rc_validate lib key' val with
            | inr v => Some v
            | inl _ => None
            end
          else None
      end
  end.

(** The keys the setup cell assigns after the style. *)
Definition colour_keys : list string :=
  ["figure.facecolor"; "axes.facecolor"; "axes.edgecolor"].

(** The namespace after the four imports of the setup cell, and the
    entries after its three colour assignments. *)
Definition bound_by_setup (names : gmap string value) : gmap string value :=
  <["mpl" := VModule "matplotlib"]>
    (<["plt" := VModule "matplotlib.pyplot"]>
       (<["pd" := VModule "pandas"]>
          (<["np" := VModule "numpy"]> names))).

Definition coloured (w1 w2 w3 : string) (rc : gmap string string) :
    gmap string string :=
  <["axes.edgecolor" := w3]>
    (<["axes.facecolor" := w2]>
       (<["figure.facecolor" := w1]> rc)).

(** A statement that, while [print] is the builtin, either writes one
    line and completes or stops without any effect. *)
Definition prints (lib : library) (s : stmt) : Prop :=
  forall k, ns k !! "print" = None ->
    (exists line,
       exec lib s k =
       (MkKernel (ns k) (rcParams k) (stdout k ++ [line]) (canvas k), Done tt)) \/
    (exists st, exec lib s k = (k, st) /\ st <> Done tt).

(** An installation whose matplotlib knows no style. *)
Definition without_styles (lib : library) : library :=
  {| find_module := find_module lib;
     module_attr := module_attr lib;
     style_settings _ := inl (Installed.OSError "style not found");
     rc_validate := rc_validate lib;
     str_of := str_of lib |}.

(** The setup cell with "this whole block" commented out, as its comment
    offers: the three imports that are left. *)
Definition setup_cell_unstyled : cell :=
  Code "ec05b3eb-1b64-45e1-861b-c60d8f0018be"
    [ SImport "numpy" (Some "np");
      SImport "pandas" (Some "pd");
      SImport "matplotlib.pyplot" (Some "plt") ].

Definition brittle_faults_p2_unstyled : notebook :=
  [ Markdown "da3e2ddc-460d-41dd-b422-43858c7f6939";
    setup_cell_unstyled;
    Markdown "a14a7d59-150e-46e6-af4a-bc3772c92763";
    versions_cell ].

End Effects.

(** ** What the cells ask of the installation *)

Module Requests.
Import Kernel Cells Analysis Notebook Effects.
Local Open Scope string_scope.

(** A call into the installation. *)
Inductive request :=
| Import (m : string)              (* import m *)
| GetAttr (m a : string)           (* the attribute a of the module m *)
| UseStyle (style : string)        (* matplotlib.style.use(style) reads the style *)
| Validate (key val : string).     (* rcParams[key] = val validates val *)

(** The exception the installation raises for a request, if it raises. *)
Definition answer (lib : library) (r : request) : option exn :=
  match r with
  | Import m => find_module lib m
  | GetAttr m a =>
      match module_attr lib m a with inl e => Some e | inr _ => None end
  | UseStyle style =>
      match style_settings lib (VStr style) with inl e => Some e | inr _ => None end
  | Validate key val =>
      match rc_validate lib key val with inl e => Some e | inr _ => None end
  end.

(** The exception of the first request of a list that raises. *)
Fixpoint first_failure (lib : library) (rs : list request) : option exn :=
  match rs with
  | [] => None
  | r :: rest =>
      match answer lib r with
      | Some e => Some e
      | None => first_failure lib rest
      end
  end.

(** How a run that makes the requests [rs] in turn ends when nothing
    catches an exception: with the first exception raised, or normally. *)
Definition outcome (lib : library) (rs : list request) : status unit :=
  match first_failure lib rs with
  | Some e => Raised e
  | None => Done tt
  end.

(** The validations [rcParams.update] runs for the settings of the style. *)
Definition style_requests (lib : library) : list request :=
  match style_settings lib (VStr "fivethirtyeight") with
  | inr settings => map (fun kv => Validate kv.1 kv.2) settings
  | inl _ => []
  end.

(** The requests of the setup cell, in the order of its statements: four
    imports; [mpl.style], [.use], the style and its settings; then for
    each colour [mpl.rcParams] and the validation of the value. *)
Definition setup_requests (lib : library) : list request :=
  [ Import "numpy"; Import "pandas"; Import "matplotlib.pyplot";
    Import "matplotlib";
    GetAttr "matplotlib" "style"; GetAttr "matplotlib.style" "use";
    UseStyle "fivethirtyeight" ] ++
  style_requests lib ++
  [ GetAttr "matplotlib" "rcParams"; Validate "figure.facecolor" "white";
    GetAttr "matplotlib" "rcParams"; Validate "axes.facecolor" "white";
    GetAttr "matplotlib" "rcParams"; Validate "axes.edgecolor" "white" ].

(** The requests of the versions cell, run after the setup cell. *)
Definition versions_requests : list request :=
  [ Import "sys"; GetAttr "sys" "version"; GetAttr "numpy" "__version__";
    GetAttr "matplotlib" "__version__"; GetAttr "pandas" "__version__" ].






Definition writes_nothing_left (lib : library) (nb : notebook) : Prop :=
  forall k,
    (forall x v, ns k !! x = Some v -> ns (run lib nb k).1 !! x = Some v) /\
    (forall key v, rcParams k !! key = Some v ->
                   rcParams (run lib nb k).1 !! key = Some v).



Definition left_behind : kernel :=
  MkKernel {[ "np" := VStr "other" ]} {[ "axes.facecolor" := "black" ]}
           ["earlier output"] [Figure [] ["note"]].

End Requests.

(** ** Facts on the laws *)

Module FormulasFacts.
Import Formulas.
Local Open Scope R_scope.

(** Cohesion 5, friction 0.6, normal stress 100: a dry fault holds 65, at
    [lambda = 0.4] it holds 41. *)
Example hubbert_rubey_dry_fault : coulomb 5 (3 / 5) 100 = 65.
Proof. unfold coulomb. lra. Qed.

Example hubbert_rubey_wet_fault : hubbert_rubey 5 (3 / 5) 100 (2 / 5) = 41.
Proof. unfold hubbert_rubey. lra. Qed.

(** The two right-hand sides of the first display of the cell are one
    value. *)
Lemma hubbert_rubey_eff_coulomb C_0 mu sigma_n P_f :
  hubbert_rubey_eff C_0 mu sigma_n P_f =
  coulomb C_0 mu (effective_normal_stress sigma_n P_f).
Proof. reflexivity. Qed.

(** C1: for every cohesion [C_0], friction coefficient [mu] and normal
    stress [sigma_n], the pore-pressure form
    [C_0 + mu * sigma_n * (1 - lambda)] taken at [lambda = 0] is Coulomb's
    law [C_0 + mu * sigma_n]. *)
Theorem hubbert_rubey_dry C_0 mu sigma_n :
  hubbert_rubey C_0 mu sigma_n 0 = coulomb C_0 mu sigma_n.
Proof. unfold hubbert_rubey, coulomb. ring. Qed.

(** C9: with [sigma_L = sigma_n], [sigma_n <> 0] and
    [lambda = P_f / sigma_n], the effective-normal-stress form and the
    pore-pressure-ratio form of the law agree. *)
Theorem hubbert_rubey_forms_agree C_0 mu sigma_n P_f :
  sigma_n <> 0 ->
  hubbert_rubey_eff C_0 mu sigma_n P_f =
  hubbert_rubey C_0 mu sigma_n (pore_pressure_ratio P_f sigma_n).
Proof.
  intros Hsn.
  unfold hubbert_rubey_eff, hubbert_rubey, pore_pressure_ratio.
  field. exact Hsn.
Qed.

Lemma hubbert_rubey_forms_agree_witness :
  100 <> 0 /\
  hubbert_rubey_eff 5 (3 / 5) 100 40 =
  hubbert_rubey 5 (3 / 5) 100 (pore_pressure_ratio 40 100).
Proof.
  assert (H : 100 <> 0) by lra.
  split; [exact H | exact (hubbert_rubey_forms_agree 5 (3 / 5) 100 40 H)].
Defined.

(** C10: for [mu > 0] and [sigma_n > 0] the shear strength is strictly
    decreasing in the pore-pressure ratio: [lambda1 < lambda2] gives a
    larger strength at [lambda1] than at [lambda2]. *)
Theorem hubbert_rubey_decreasing C_0 mu sigma_n lambda1 lambda2 :
  mu > 0 -> sigma_n > 0 -> lambda1 < lambda2 ->
  hubbert_rubey C_0 mu sigma_n lambda1 > hubbert_rubey C_0 mu sigma_n lambda2.
Proof.
  intros Hmu Hsn Hlt. unfold hubbert_rubey.
  assert (Hpos : 0 < mu * sigma_n) by (apply Rmult_lt_0_compat; lra).
  assert (Hstep : mu * sigma_n * (1 - lambda2) < mu * sigma_n * (1 - lambda1)).
  { apply Rmult_lt_compat_l; lra. }
  lra.
Qed.

Lemma hubbert_rubey_decreasing_witness :
  3 / 5 > 0 /\ 100 > 0 /\ 2 / 5 < 9 / 10 /\
  hubbert_rubey 5 (3 / 5) 100 (2 / 5) > hubbert_rubey 5 (3 / 5) 100 (9 / 10).
Proof.
  assert (Hmu : 3 / 5 > 0) by lra.
  assert (Hsn : 100 > 0) by lra.
  assert (Hlt : 2 / 5 < 9 / 10) by lra.
  repeat split; try assumption.
  exact (hubbert_rubey_decreasing 5 (3 / 5) 100 (2 / 5) (9 / 10) Hmu Hsn Hlt).
Defined.

End FormulasFacts.

(** ** Computations that read the kernel through a set of names *)

Module MonadFacts.
Import Kernel Analysis.
#[local] Set Warnings "-clear-no-such-hyp".

Lemma agree_mono X X' k1 k2 : X' ⊆ X -> agree X k1 k2 -> agree X' k1 k2.
Proof. intros Hsub H x Hx. apply H, Hsub, Hx. Qed.

Lemma silent_ret {A} (a : A) : silent (ret a).
Proof. intros k. reflexivity. Qed.

Lemma silent_unsupported {A} : silent (@unsupported A).
Proof. intros k. reflexivity. Qed.

Lemma silent_lookup_name x : silent (lookup_name x).
Proof.
  intros k. unfold lookup_name.
  destruct (ns k !! x); [reflexivity|]. destruct (builtins x); reflexivity.
Qed.

Lemma silent_bind {A B} (m : M A) (f : A -> M B) :
  silent m -> (forall a, silent (f a)) -> silent (bind m f).
Proof.
  intros Hm Hf k. unfold bind. specialize (Hm k).
  destruct (m k) as [k' [a| |]]; simpl in Hm; subst k'; try reflexivity.
  apply Hf.
Qed.

Lemma uniform_weaken {A} X Y X' Y' (m : M A) :
  X ⊆ X' -> Y' ⊆ Y -> uniform X Y m -> uniform X' Y' m.
Proof.
  intros HX HY Hm k1 k2 Hag.
  destruct (Hm k1 k2 (agree_mono _ _ _ _ HX Hag)) as (Hst & Hpost & Hout).
  split; [exact Hst|]. split; [|exact Hout].
  intros a Ha. eapply agree_mono; [exact HY|]. eapply Hpost, Ha.
Qed.

Lemma uniform_ret {A} X (a : A) : uniform X X (ret a).
Proof.
  intros k1 k2 Hag. split; [reflexivity|]. split; [intros _ _; exact Hag|].
  exists []. simpl. by rewrite !app_nil_r.
Qed.

Lemma uniform_raise {A} X Y e : uniform X Y (@raise A e).
Proof.
  intros k1 k2 Hag. split; [reflexivity|]. split; [intros a Ha; discriminate Ha|].
  exists []. simpl. by rewrite !app_nil_r.
Qed.

Lemma uniform_unsupported {A} X Y : uniform X Y (@unsupported A).
Proof.
  intros k1 k2 Hag. split; [reflexivity|]. split; [intros a Ha; discriminate Ha|].
  exists []. simpl. by rewrite !app_nil_r.
Qed.

Lemma uniform_lift {A} X (r : exn + A) : uniform X X (lift r).
Proof. destruct r; [apply uniform_raise | apply uniform_ret]. Qed.

Lemma uniform_bind {A B} X Y Z (m : M A) (f : A -> M B) :
  uniform X Y m -> (forall a, uniform Y Z (f a)) -> uniform X Z (bind m f).
Proof.
  intros Hm Hf k1 k2 Hag.
  destruct (Hm k1 k2 Hag) as (Hst & Hpost & l & Hl1 & Hl2).
  unfold bind.
  destruct (m k1) as [k1' st1], (m k2) as [k2' st2]. simpl in *. subst st2.
  destruct st1 as [a| e|].
  - destruct (Hf a k1' k2' (Hpost a eq_refl)) as (Hst' & Hpost' & l' & Hl1' & Hl2').
    split; [exact Hst'|]. split; [exact Hpost'|].
    exists (l ++ l'). rewrite Hl1', Hl2', Hl1, Hl2. by rewrite !app_assoc.
  - split; [reflexivity|]. split; [intros a Ha; discriminate Ha|]. by exists l.
  - split; [reflexivity|]. split; [intros a Ha; discriminate Ha|]. by exists l.
Qed.

Lemma uniform_lookup_name X x : x ∈ X -> uniform X X (lookup_name x).
Proof.
  intros Hx k1 k2 Hag. unfold lookup_name. rewrite (Hag x Hx).
  destruct (ns k2 !! x); [|destruct (builtins x)]; simpl;
    (split; [reflexivity|]; split; [intros _ _; exact Hag|];
     exists []; by rewrite !app_nil_r).
Qed.

Lemma uniform_bind_name X Y x v :
  (forall y, y ∈ Y -> y = x \/ y ∈ X) -> uniform X Y (bind_name x v).
Proof.
  intros HY k1 k2 Hag. unfold bind_name. simpl.
  split; [reflexivity|]. split.
  - intros _ _ y Hy. simpl. destruct (decide (x = y)) as [->|Hne].
    + by rewrite !lookup_insert_eq.
    + rewrite !lookup_insert_ne by exact Hne.
      destruct (HY y Hy) as [->|HyX]; [done|]. by apply Hag.
  - exists []. by rewrite !app_nil_r.
Qed.

Lemma uniform_write_line X l : uniform X X (write_line l).
Proof.
  intros k1 k2 Hag. unfold write_line. simpl.
  split; [reflexivity|]. split; [intros _ _; exact Hag|]. by exists [l].
Qed.

Lemma uniform_rc_setitem lib X key val : uniform X X (rc_setitem lib key val).
Proof.
  intros k1 k2 Hag. unfold rc_setitem.
  destruct (rc_validate lib key val); simpl;
    (split; [reflexivity|]; split; [intros _ _; exact Hag|];
     exists []; by rewrite !app_nil_r).
Qed.

Lemma uniform_rc_update lib X settings : uniform X X (rc_update lib settings).
Proof.
  induction settings as [|[key val] rest IH]; simpl.
  - apply uniform_ret.
  - eapply uniform_bind; [apply uniform_rc_setitem|]. intros _. exact IH.
Qed.

Lemma uniform_getattr lib X v a : uniform X X (getattr lib v a).
Proof.
  destruct v; cbn [getattr]; try apply uniform_lift;
    (destruct (existsb _ _); [apply uniform_raise | apply uniform_unsupported]).
Qed.

Lemma uniform_call lib X f args : uniform X X (call lib f args).
Proof.
  destruct f as [| | | | | |[]]; simpl; try apply uniform_raise.
  - eapply uniform_bind; [apply uniform_write_line|]. intros _. apply uniform_ret.
  - destruct args as [|s [|]]; try apply uniform_unsupported.
    eapply uniform_bind; [apply uniform_lift|]. intros settings.
    eapply uniform_bind; [apply uniform_rc_update|]. intros _. apply uniform_ret.
Qed.

Lemma plain_ret {A} lib (a : A) : plain lib (ret a).
Proof. intros k k' e H. discriminate H. Qed.

Lemma plain_unsupported {A} lib : plain lib (@unsupported A).
Proof. intros k k' e H. discriminate H. Qed.

Lemma plain_raise {A} lib e : default_error lib e -> plain lib (@raise A e).
Proof. intros He k k' e' H. injection H as _ <-. exact He. Qed.

Lemma plain_bind {A B} lib (m : M A) (f : A -> M B) :
  plain lib m -> (forall a, plain lib (f a)) -> plain lib (bind m f).
Proof.
  intros Hm Hf k k' e. unfold bind.
  destruct (m k) as [k1 [a|e1|]] eqn:Hmk; intros H.
  - by eapply Hf.
  - injection H as _ <-. by eapply Hm.
  - discriminate H.
Qed.

Lemma plain_lookup_name lib x : plain lib (lookup_name x).
Proof.
  intros k k' e. unfold lookup_name.
  destruct (ns k !! x); [discriminate|]. destruct (builtins x); [discriminate|].
  intros H. injection H as _ <-. right. left. by exists x.
Qed.

Lemma plain_bind_name lib x v : plain lib (bind_name x v).
Proof. intros k k' e H. discriminate H. Qed.

Lemma plain_write_line lib l : plain lib (write_line l).
Proof. intros k k' e H. discriminate H. Qed.

Lemma plain_rc_setitem lib key val : plain lib (rc_setitem lib key val).
Proof.
  intros k k' e. unfold rc_setitem.
  destruct (rc_validate lib key val) as [e1|v] eqn:Hv; [|discriminate].
  intros H. injection H as _ <-. left. do 3 right. by exists key, val.
Qed.

Lemma plain_rc_update lib settings : plain lib (rc_update lib settings).
Proof.
  induction settings as [|[key val] rest IH]; simpl.
  - apply plain_ret.
  - apply plain_bind; [apply plain_rc_setitem|]. intros _. exact IH.
Qed.

Lemma plain_getattr lib v a : plain lib (getattr lib v a).
Proof.
  destruct v; cbn [getattr];
    try (destruct (existsb _ _);
         [apply plain_raise; right; right; right; by eexists _, _
         | apply plain_unsupported]).
  destruct (module_attr lib name a) as [e|v] eqn:Ha; simpl.
  - apply plain_raise. left. right. left. by exists name, a.
  - apply plain_ret.
Qed.

Lemma plain_call lib f args : plain lib (call lib f args).
Proof.
  destruct f as [| | | | | |[]]; simpl;
    try (apply plain_raise; right; right; left; by eexists).
  - apply plain_bind; [apply plain_write_line|]. intros _. apply plain_ret.
  - destruct args as [|s [|]]; try apply plain_unsupported.
    apply plain_bind.
    + destruct (style_settings lib s) as [e|settings] eqn:Hs; simpl.
      * apply plain_raise. left. do 2 right. left. by exists s.
      * apply plain_ret.
    + intros settings. apply plain_bind; [apply plain_rc_update|].
      intros _. apply plain_ret.
Qed.

End MonadFacts.

(** ** Execution reads the kernel through the free names only *)

Module CellsFacts.
Import Kernel Cells Analysis MonadFacts.
#[local] Set Warnings "-clear-no-such-hyp".

(** Induction on expressions, with the arguments of a call. *)
Lemma expr_ind' (P : expr -> Prop) :
  (forall x, P (EName x)) ->
  (forall s, P (EStr s)) ->
  (forall e a, P e -> P (EAttr e a)) ->
  (forall f args, P f -> Forall P args -> P (ECall f args)) ->
  forall e, P e.
Proof.
  intros HName HStr HAttr HCall.
  fix IH 1. intros [x|s|e a|f args].
  - apply HName.
  - apply HStr.
  - apply HAttr, IH.
  - apply HCall; [apply IH|].
    induction args as [|a args IHargs]; constructor; [apply IH | exact IHargs].
Qed.

Lemma uniform_eval lib X e : names_of e ⊆ X -> uniform X X (eval lib e).
Proof.
  induction e as [x|s|e a IHe|f args IHf IHargs] using expr_ind';
    intros Hsub; cbn [eval].
  - apply uniform_lookup_name, Hsub. simpl. set_solver.
  - apply uniform_ret.
  - eapply uniform_bind; [apply IHe, Hsub|]. intros v. apply uniform_getattr.
  - simpl in Hsub.
    eapply uniform_bind; [apply IHf; set_solver|]. intros fv.
    eapply uniform_bind; [|intros vs; apply uniform_call].
    assert (Hargs : flat_map names_of args ⊆ X) by set_solver.
    clear Hsub IHf. induction IHargs as [|a args Ha _ IH].
    + apply uniform_ret.
    + simpl in Hargs.
      eapply uniform_bind; [apply Ha; set_solver|]. intros v.
      eapply uniform_bind; [apply IH; set_solver|]. intros vs. apply uniform_ret.
Qed.

Lemma plain_eval lib e : plain lib (eval lib e).
Proof.
  induction e as [x|s|e a IHe|f args IHf IHargs] using expr_ind'; cbn [eval].
  - apply plain_lookup_name.
  - apply plain_ret.
  - apply plain_bind; [exact IHe|]. intros v. apply plain_getattr.
  - apply plain_bind; [exact IHf|]. intros fv.
    apply plain_bind; [|intros vs; apply plain_call].
    induction IHargs as [|a args Ha _ IH]; [apply plain_ret|].
    apply plain_bind; [exact Ha|]. intros v.
    apply plain_bind; [exact IH|]. intros vs. apply plain_ret.
Qed.

Lemma plain_exec lib s : plain lib (exec lib s).
Proof.
  destruct s as [m alias|obj key val|e]; cbn [exec].
  - destruct (find_module lib m) as [e|] eqn:Hm.
    + apply plain_raise. left. left. by exists m.
    + apply plain_bind_name.
  - apply plain_bind; [apply plain_eval|]. intros v.
    apply plain_bind; [apply plain_eval|]. intros o.
    apply plain_bind; [apply plain_eval|]. intros i.
    destruct o; try apply plain_unsupported; try (apply plain_raise; right; right; left; by eexists).
    destruct i; try apply plain_unsupported.
    destruct v; try apply plain_unsupported.
    apply plain_rc_setitem.
  - apply plain_bind; [apply plain_eval|]. intros v. apply plain_ret.
Qed.

(** A statement needs the names it reads; after it the kernels agree on
    what they agreed on and on what it bound. *)
Lemma uniform_exec lib X Y s :
  reads_of s ⊆ X ->
  (forall y, y ∈ Y -> y ∈ binds_of s \/ y ∈ X) ->
  uniform X Y (exec lib s).
Proof.
  intros Hreads HY. destruct s as [m alias|obj key val|e]; cbn [exec].
  - destruct (find_module lib m); [apply uniform_raise|].
    apply uniform_bind_name. intros y Hy.
    destruct (HY y Hy) as [Hb|Hx]; [left|by right].
    simpl in Hb. set_solver.
  - assert (HYX : Y ⊆ X).
    { intros y Hy. destruct (HY y Hy) as [Hb|Hx]; [|exact Hx]. simpl in Hb. set_solver. }
    simpl in Hreads.
    apply (uniform_weaken X X); [done|exact HYX|].
    eapply uniform_bind; [apply uniform_eval; set_solver|]. intros v.
    eapply uniform_bind; [apply uniform_eval; set_solver|]. intros o.
    eapply uniform_bind; [apply uniform_eval; set_solver|]. intros i.
    destruct o; try apply uniform_unsupported; try (apply uniform_raise).
    destruct i; try apply uniform_unsupported.
    destruct v; try apply uniform_unsupported.
    apply uniform_rc_setitem.
  - assert (HYX : Y ⊆ X).
    { intros y Hy. destruct (HY y Hy) as [Hb|Hx]; [|exact Hx]. simpl in Hb. set_solver. }
    simpl in Hreads.
    apply (uniform_weaken X X); [done|exact HYX|].
    eapply uniform_bind; [apply uniform_eval; set_solver|]. intros v.
    apply uniform_ret.
Qed.

Lemma uniform_exec_body lib body :
  uniform (free_names body) [] (exec_body lib body).
Proof.
  induction body as [|s rest IH]; cbn [exec_body free_names].
  - apply uniform_ret.
  - eapply uniform_bind; [|intros _; exact IH].
    apply uniform_exec; [set_solver|].
    intros y Hy. destruct (decide (y ∈ binds_of s)) as [Hb|Hnb]; [by left|right].
    apply elem_of_app. right. apply list_elem_of_filter. by split.
Qed.

(** Run all is the run of the statements of the document, in order. *)
Lemma run_statements lib nb k : run lib nb k = exec_body lib (statements nb) k.
Proof.
  revert k. induction nb as [|c rest IH]; intros k; [reflexivity|].
  cbn [run statements flat_map]. fold (statements rest).
  destruct c as [id|id body]; cbn [run_cell body_of].
  - unfold bind. simpl. apply IH.
  - revert k. induction body as [|s body IHb]; intros k; simpl.
    + unfold bind. simpl. apply IH.
    + unfold bind in *. destruct (exec lib s k) as [k' [[]| |]]; try reflexivity.
      apply IHb.
Qed.

End CellsFacts.

(** ** Facts on the evaluation of a formula *)

Module CurveFacts.
Import Kernel Analysis MonadFacts Curve Formulas Cells Notebook Installed.
Local Open Scope string_scope.
#[local] Set Warnings "-clear-no-such-hyp".

Lemma silent_number p : silent (number p).
Proof.
  apply silent_bind; [apply silent_lookup_name|].
  intros []; try apply silent_unsupported. apply silent_ret.
Qed.

Lemma uniform_number X p : p ∈ X -> uniform X X (number p).
Proof.
  intros Hp. eapply uniform_bind; [apply uniform_lookup_name, Hp|].
  intros []; try apply uniform_unsupported. apply uniform_ret.
Qed.

(** Reading the parameters of a formula changes nothing in the kernel. *)
Lemma silent_pointwise f : silent (pointwise f).
Proof.
  induction f as [|p|c|f IHf g IHg|f IHf g IHg|f IHf g IHg|f IHf g IHg];
    cbn [pointwise];
    try (apply silent_bind; [exact IHf|]; intros a;
         apply silent_bind; [exact IHg|]; intros b; apply silent_ret).
  - apply silent_ret.
  - apply silent_bind; [apply silent_number|]. intros c. apply silent_ret.
  - apply silent_ret.
Qed.

(** A formula reads the kernel through its parameters only. *)
Lemma uniform_pointwise X f : parameters f ⊆ X -> uniform X X (pointwise f).
Proof.
  induction f as [|p|c|f IHf g IHg|f IHf g IHg|f IHf g IHg|f IHf g IHg];
    cbn [pointwise parameters]; intros Hsub;
    try (eapply uniform_bind; [apply IHf; set_solver|]; intros a;
         eapply uniform_bind; [apply IHg; set_solver|]; intros b;
         apply uniform_ret).
  - apply uniform_ret.
  - eapply uniform_bind; [apply uniform_number; set_solver|].
    intros c. apply uniform_ret.
  - apply uniform_ret.
Qed.

Lemma number_done k p :
  numeric k p = true -> exists c, number p k = (k, Done c).
Proof.
  unfold numeric, number, bind, lookup_name.
  destruct (ns k !! p) as [[]|]; try discriminate. intros _. by eexists.
Qed.

Lemma number_bound k p c :
  ns k !! p = Some (VNum c) -> number p k = (k, Done c).
Proof. intros H. unfold number, bind, lookup_name. by rewrite H. Qed.

(** With every parameter bound to a number the formula has a value at
    each point. *)
Lemma pointwise_done k f :
  forallb (numeric k) (parameters f) = true ->
  exists h, pointwise f k = (k, Done h).
Proof.
  induction f as [|p|c|f IHf g IHg|f IHf g IHg|f IHf g IHg|f IHf g IHg];
    cbn [pointwise parameters]; intros Hnum;
    try (rewrite forallb_app in Hnum; apply andb_prop in Hnum as [Hf Hg];
         destruct (IHf Hf) as [a Ha]; destruct (IHg Hg) as [b Hb];
         unfold bind; rewrite Ha, Hb; by eexists).
  - by eexists.
  - simpl in Hnum. rewrite andb_true_r in Hnum.
    destruct (number_done k p Hnum) as [c Hc]. unfold bind. rewrite Hc. by eexists.
  - by eexists.
Qed.

(** The formula of the markdown cell, evaluated over an axis of normal
    stresses, is the law applied at each stress. *)
Lemma evaluate_hubbert_rubey C_0 mu lambda axis k :
  evaluate hubbert_rubey_formula axis (with_parameters C_0 mu lambda k) =
  (with_parameters C_0 mu lambda k,
   Done (map (fun sigma_n => hubbert_rubey C_0 mu sigma_n lambda) axis)).
Proof.
  set (k' := with_parameters C_0 mu lambda k).
  assert (HC : number "C_0" k' = (k', Done C_0)).
  { apply number_bound. subst k'. unfold with_parameters. cbn [ns]. by simplify_map_eq. }
  assert (Hm : number "mu" k' = (k', Done mu)).
  { apply number_bound. subst k'. unfold with_parameters. cbn [ns]. by simplify_map_eq. }
  assert (Hl : number "lambda" k' = (k', Done lambda)).
  { apply number_bound. subst k'. unfold with_parameters. cbn [ns]. by simplify_map_eq. }
  unfold evaluate, hubbert_rubey_formula. cbn [pointwise]. unfold bind.
  rewrite HC. cbn [ret]. rewrite Hm. cbn [ret]. rewrite Hl. reflexivity.
Qed.

(** C4: a formula is a pure function of its inputs.  Evaluated from two
    kernels that bind its scalar parameters alike, on the same axis, it
    returns the same sequence (or fails alike), whatever else the kernels
    hold, and the evaluation leaves both kernels as they were. *)
Theorem evaluate_pure f axis k1 k2 :
  agree (parameters f) k1 k2 ->
  (evaluate f axis k1).2 = (evaluate f axis k2).2 /\
  (evaluate f axis k1).1 = k1 /\ (evaluate f axis k2).1 = k2.
Proof.
  intros Hag.
  assert (Hsilent : silent (evaluate f axis)).
  { apply silent_bind; [apply silent_pointwise|]. intros h. apply silent_ret. }
  assert (Huni : uniform (parameters f) (parameters f) (evaluate f axis)).
  { eapply uniform_bind; [by apply uniform_pointwise|]. intros h. apply uniform_ret. }
  split; [apply (Huni k1 k2 Hag)|]. split; apply Hsilent.
Qed.

(** C5: with the scalar parameters set, the output sequence exists and is
    as long as the input axis. *)
Theorem evaluate_length f axis k :
  forallb (numeric k) (parameters f) = true ->
  exists ys, (evaluate f axis k).2 = Done ys /\ length ys = length axis.
Proof.
  intros Hnum. destruct (pointwise_done k f Hnum) as [h Hh].
  exists (map h axis). unfold evaluate, bind. rewrite Hh. simpl.
  split; [reflexivity | apply length_map].
Qed.

Lemma evaluate_pure_witness :
  let k1 := with_parameters 5 (3 / 5) (2 / 5) fresh in
  let k2 := with_parameters 5 (3 / 5) (2 / 5)
              (run installation brittle_faults_p2 fresh).1 in
  agree (parameters hubbert_rubey_formula) k1 k2 /\
  (evaluate hubbert_rubey_formula [0; 50; 100]%R k1).2 =
  (evaluate hubbert_rubey_formula [0; 50; 100]%R k2).2 /\
  (evaluate hubbert_rubey_formula [0; 50; 100]%R k1).1 = k1 /\
  (evaluate hubbert_rubey_formula [0; 50; 100]%R k2).1 = k2.
Proof.
  intros k1 k2.
  assert (Hag : agree (parameters hubbert_rubey_formula) k1 k2).
  { intros x Hx. apply list_elem_of_In in Hx. simpl in Hx.
    destruct Hx as [<-|[<-|[<-|[]]]]; reflexivity. }
  split; [exact Hag|].
  exact (evaluate_pure hubbert_rubey_formula [0; 50; 100]%R k1 k2 Hag).
Defined.

Lemma evaluate_length_witness :
  let k := with_parameters 5 (3 / 5) (2 / 5) fresh in
  forallb (numeric k) (parameters hubbert_rubey_formula) = true /\
  exists ys, (evaluate hubbert_rubey_formula [0; 50; 100]%R k).2 = Done ys /\
             length ys = length [0; 50; 100]%R.
Proof.
  intros k.
  assert (Hnum : forallb (numeric k) (parameters hubbert_rubey_formula) = true)
    by reflexivity.
  split; [exact Hnum|].
  exact (evaluate_length hubbert_rubey_formula [0; 50; 100]%R k Hnum).
Defined.

End CurveFacts.

(** ** Facts on the run of the notebook *)

Module NotebookFacts.
Import Kernel Cells Analysis MonadFacts CellsFacts Notebook Installed.
Local Open Scope string_scope.
#[local] Set Warnings "-clear-no-such-hyp".

(** The run on the sample installation, from a fresh kernel. *)
Example sample_run_prints :
  stdout (run installation brittle_faults_p2 fresh).1 =
  [ "Notebook tested using:"; "Python 3.9.4"; "Numpy 1.20.1";
    "Matplotlib 3.3.4"; "Pandas 1.2.4" ].
Proof. vm_compute. reflexivity. Qed.

Example sample_run_rcParams :
  map_to_list (rcParams (run installation brittle_faults_p2 fresh).1) =
  [ ("axes.edgecolor", "white"); ("axes.facecolor", "white");
    ("figure.facecolor", "white"); ("lines.linewidth", "4") ].
Proof. vm_compute. reflexivity. Qed.

(** The versions cell on its own: two lines, then [np] is missing. *)
Example versions_cell_alone :
  run_cell installation versions_cell fresh =
  (MkKernel {[ "sys" := VModule "sys" ]} ∅
            [ "Notebook tested using:"; "Python 3.9.4" ] [],
   Raised (NameError "np")).
Proof. vm_compute. reflexivity. Qed.

(** Without pandas the setup cell stops at the second import, with [np]
    bound. *)
Example setup_cell_without_pandas :
  run_cell (without "pandas" installation) setup_cell fresh =
  (MkKernel {[ "np" := VModule "numpy" ]} ∅ [] [],
   Raised (ModuleNotFoundError "pandas")).
Proof. vm_compute. reflexivity. Qed.

Lemma rc_update_done lib settings k :
  Forall (fun kv => exists v, rc_validate lib kv.1 kv.2 = inr v) settings ->
  exists rc',
    rc_update lib settings k =
    (MkKernel (ns k) rc' (stdout k) (canvas k), Done tt).
Proof.
  intros Hvalid. revert k.
  induction Hvalid as [|[key val] rest [v Hv] _ IH]; intros k.
  - exists (rcParams k). by destruct k.
  - simpl in Hv. cbn [rc_update]. unfold bind, rc_setitem. rewrite Hv.
    destruct (IH (MkKernel (ns k) (<[key := v]> (rcParams k)) (stdout k) (canvas k)))
      as [rc' Hrc'].
    exists rc'. exact Hrc'.
Qed.

Lemma bind_done {A B} (m : M A) (f : A -> M B) k k' a :
  m k = (k', Done a) -> bind m f k = f a k'.
Proof. intros H. unfold bind. by rewrite H. Qed.

(** One statement that completes, then the rest of the cell. *)
Lemma exec_body_step lib s rest k k' :
  exec lib s k = (k', Done tt) ->
  exec_body lib (s :: rest) k = exec_body lib rest k'.
Proof. intros H. cbn [exec_body]. unfold bind. by rewrite H. Qed.

Lemma exec_import_as lib m x k :
  find_module lib m = None ->
  exec lib (SImport m (Some x)) k =
  (MkKernel (<[x := VModule m]> (ns k)) (rcParams k) (stdout k) (canvas k), Done tt).
Proof. intros H. cbn [exec]. by rewrite H. Qed.

Lemma exec_import lib m k :
  find_module lib m = None ->
  exec lib (SImport m None) k =
  (MkKernel (<[top_package m := VModule (top_package m)]> (ns k))
            (rcParams k) (stdout k) (canvas k), Done tt).
Proof. intros H. cbn [exec]. by rewrite H. Qed.

(** [x.a] with [x] bound to a module. *)
Lemma eval_module_attr lib x a m v k :
  ns k !! x = Some (VModule m) ->
  module_attr lib m a = inr v ->
  eval lib (EAttr (EName x) a) k = (k, Done v).
Proof.
  intros Hx Ha. cbn [eval]. unfold bind, lookup_name. rewrite Hx.
  cbn [getattr]. by rewrite Ha.
Qed.

Lemma exec_set_rc lib key val m v k :
  ns k !! "mpl" = Some (VModule m) ->
  module_attr lib m "rcParams" = inr VRcParams ->
  rc_validate lib key val = inr v ->
  exec lib (set_rc key val) k =
  (MkKernel (ns k) (<[key := v]> (rcParams k)) (stdout k) (canvas k), Done tt).
Proof.
  intros Hmpl Hattr Hv. unfold set_rc. cbn [exec].
  rewrite (bind_done _ _ k k (VStr val)) by reflexivity.
  rewrite (bind_done _ _ k k VRcParams) by (by eapply eval_module_attr).
  rewrite (bind_done _ _ k k (VStr key)) by reflexivity.
  unfold rc_setitem. by rewrite Hv.
Qed.

Lemma exec_style_use lib style settings k :
  ns k !! "mpl" = Some (VModule "matplotlib") ->
  module_attr lib "matplotlib" "style" = inr (VModule "matplotlib.style") ->
  module_attr lib "matplotlib.style" "use" = inr (VFunction FStyleUse) ->
  style_settings lib (VStr style) = inr settings ->
  Forall (fun kv => exists v, rc_validate lib kv.1 kv.2 = inr v) settings ->
  exists rc',
    exec lib (SExpr (ECall (EAttr (EAttr (EName "mpl") "style") "use")
                           [EStr style])) k =
    (MkKernel (ns k) rc' (stdout k) (canvas k), Done tt).
Proof.
  intros Hmpl Hstyle Huse Hset Hvalid.
  destruct (rc_update_done lib settings k Hvalid) as [rc' Hrc'].
  exists rc'. cbn [exec eval].
  rewrite (bind_done _ _ k (MkKernel (ns k) rc' (stdout k) (canvas k)) VNone);
    [reflexivity|].
  rewrite (bind_done _ _ k k (VFunction FStyleUse)).
  2:{ rewrite (bind_done _ _ k k (VModule "matplotlib.style")).
      - cbn [getattr]. by rewrite Huse.
      - by apply (eval_module_attr lib "mpl" "style" "matplotlib"). }
  rewrite (bind_done _ _ k k [VStr style]) by reflexivity.
  cbn [call]. rewrite (bind_done _ _ k k settings) by (by rewrite Hset).
  by rewrite (bind_done _ _ _ _ tt Hrc').
Qed.

Lemma eval_print lib k : ns k !! "print" = None ->
  eval lib (EName "print") k = (k, Done (VFunction FPrint)).
Proof. intros H. cbn [eval]. unfold lookup_name. by rewrite H. Qed.

Lemma exec_print_heading lib text k :
  ns k !! "print" = None ->
  exec lib (SExpr (ECall (EName "print") [EStr text])) k =
  (MkKernel (ns k) (rcParams k) (stdout k ++ [text]) (canvas k), Done tt).
Proof.
  intros Hprint. cbn [exec].
  rewrite (bind_done _ _ k
             (MkKernel (ns k) (rcParams k) (stdout k ++ [text]) (canvas k)) VNone);
    [reflexivity|].
  change (eval lib (ECall (EName "print") [EStr text])) with
    (let* fv := eval lib (EName "print") in
     let* vs := (let* v := eval lib (EStr text) in
                 let* vs := ret [] in ret (v :: vs)) in
     call lib fv vs).
  rewrite (bind_done _ _ k k _ (eval_print lib k Hprint)).
  rewrite (bind_done _ _ k k [VStr text]) by reflexivity.
  reflexivity.
Qed.

Lemma exec_print_version lib label x attr m v k :
  ns k !! "print" = None ->
  ns k !! x = Some (VModule m) ->
  module_attr lib m attr = inr (VStr v) ->
  exec lib (print_version label x attr) k =
  (MkKernel (ns k) (rcParams k) (stdout k ++ [label +:+ " " +:+ v]) (canvas k),
   Done tt).
Proof.
  intros Hprint Hx Hattr. unfold print_version. cbn [exec].
  rewrite (bind_done _ _ k
             (MkKernel (ns k) (rcParams k) (stdout k ++ [label +:+ " " +:+ v])
                       (canvas k)) VNone);
    [reflexivity|].
  change (eval lib (ECall (EName "print") [EStr label; EAttr (EName x) attr])) with
    (let* fv := eval lib (EName "print") in
     let* vs := (let* a := eval lib (EStr label) in
                 let* vs := (let* b := eval lib (EAttr (EName x) attr) in
                             let* vs := ret [] in ret (b :: vs)) in
                 ret (a :: vs)) in
     call lib fv vs).
  rewrite (bind_done _ _ k k _ (eval_print lib k Hprint)).
  rewrite (bind_done _ _ k k [VStr label; VStr v]).
  2:{ rewrite (bind_done _ _ k k (VStr label)) by reflexivity.
      rewrite (bind_done _ _ k k [VStr v]); [reflexivity|].
      by rewrite (bind_done _ _ k k (VStr v) (eval_module_attr lib x attr m _ k Hx Hattr)). }
  reflexivity.
Qed.

Lemma exec_print_version_unbound lib label x attr k :
  ns k !! "print" = None -> ns k !! x = None -> builtins x = None ->
  exec lib (print_version label x attr) k = (k, Raised (NameError x)).
Proof.
  intros Hprint Hx Hb. unfold print_version. cbn [exec].
  change (eval lib (ECall (EName "print") [EStr label; EAttr (EName x) attr])) with
    (let* fv := eval lib (EName "print") in
     let* vs := (let* a := eval lib (EStr label) in
                 let* vs := (let* b := eval lib (EAttr (EName x) attr) in
                             let* vs := ret [] in ret (b :: vs)) in
                 ret (a :: vs)) in
     call lib fv vs).
  unfold bind at 1.
  rewrite (bind_done _ _ k k _ (eval_print lib k Hprint)).
  unfold bind. cbn [eval ret]. unfold bind, lookup_name. by rewrite Hx, Hb.
Qed.

Lemma installation_supports : supports installation.
Proof.
  constructor; try reflexivity; try (by eexists).
  exists fivethirtyeight. split; [reflexivity|].
  repeat constructor; by eexists.
Qed.

(** The setup cell, on an installation that supports the notebook. *)
Lemma setup_effect lib k :
  supports lib ->
  exists rc0 w1 w2 w3,
    rc_validate lib "figure.facecolor" "white" = inr w1 /\
    rc_validate lib "axes.facecolor" "white" = inr w2 /\
    rc_validate lib "axes.edgecolor" "white" = inr w3 /\
    run_cell lib setup_cell k =
    (MkKernel (<["mpl" := VModule "matplotlib"]>
                 (<["plt" := VModule "matplotlib.pyplot"]>
                    (<["pd" := VModule "pandas"]>
                       (<["np" := VModule "numpy"]> (ns k)))))
              (<["axes.edgecolor" := w3]>
                 (<["axes.facecolor" := w2]>
                    (<["figure.facecolor" := w1]> rc0)))
              (stdout k) (canvas k), Done tt).
Proof.
  intros [Hnp Hpd Hplt Hmpl Hsys Hstyle Huse Hrc _ _ _ _
          (settings & Hset & Hvalid) [w1 Hw1] [w2 Hw2] [w3 Hw3]].
  unfold setup_cell, run_cell.
  rewrite (exec_body_step _ _ _ _ _ (exec_import_as lib _ _ _ Hnp)).
  rewrite (exec_body_step _ _ _ _ _ (exec_import_as lib _ _ _ Hpd)).
  rewrite (exec_body_step _ _ _ _ _ (exec_import_as lib _ _ _ Hplt)).
  rewrite (exec_body_step _ _ _ _ _ (exec_import_as lib _ _ _ Hmpl)).
  cbn [ns rcParams stdout canvas].
  set (ns4 := <["mpl" := VModule "matplotlib"]> _).
  assert (Hm : ns4 !! "mpl" = Some (VModule "matplotlib"))
    by (subst ns4; by rewrite lookup_insert_eq).
  destruct (exec_style_use lib "fivethirtyeight" settings
              (MkKernel ns4 (rcParams k) (stdout k) (canvas k))
              Hm Hstyle Huse Hset Hvalid) as [rc0 Hrc0].
  exists rc0, w1, w2, w3. repeat (split; [assumption|]).
  cbn [ns rcParams stdout canvas] in Hrc0.
  rewrite (exec_body_step _ _ _ _ _ Hrc0).
  rewrite (exec_body_step _ _ _ _ _
             (exec_set_rc lib _ _ "matplotlib" w1
                (MkKernel ns4 _ _ _) Hm Hrc Hw1)).
  cbn [ns rcParams stdout canvas].
  rewrite (exec_body_step _ _ _ _ _
             (exec_set_rc lib _ _ "matplotlib" w2
                (MkKernel ns4 _ _ _) Hm Hrc Hw2)).
  cbn [ns rcParams stdout canvas].
  rewrite (exec_body_step _ _ _ _ _
             (exec_set_rc lib _ _ "matplotlib" w3
                (MkKernel ns4 _ _ _) Hm Hrc Hw3)).
  reflexivity.
Qed.

(** The versions cell, once [np], [mpl] and [pd] are bound. *)
Lemma versions_effect lib k :
  supports lib ->
  ns k !! "print" = None ->
  ns k !! "np" = Some (VModule "numpy") ->
  ns k !! "mpl" = Some (VModule "matplotlib") ->
  ns k !! "pd" = Some (VModule "pandas") ->
  exists py npv mplv pdv,
    module_attr lib "sys" "version" = inr (VStr py) /\
    module_attr lib "numpy" "__version__" = inr (VStr npv) /\
    module_attr lib "matplotlib" "__version__" = inr (VStr mplv) /\
    module_attr lib "pandas" "__version__" = inr (VStr pdv) /\
    run_cell lib versions_cell k =
    (MkKernel (<["sys" := VModule "sys"]> (ns k)) (rcParams k)
              (stdout k ++ [ "Notebook tested using:";
                             "Python " +:+ py;
                             "Numpy " +:+ npv;
                             "Matplotlib " +:+ mplv;
                             "Pandas " +:+ pdv ])
              (canvas k), Done tt).
Proof.
  intros [_ _ _ _ Hsys _ _ _ [py Hpy] [npv Hnpv] [mplv Hmplv] [pdv Hpdv] _ _ _ _]
         Hprint Hnp Hmpl Hpd.
  exists py, npv, mplv, pdv. repeat (split; [assumption|]).
  unfold versions_cell, run_cell.
  rewrite (exec_body_step _ _ _ _ _ (exec_import lib _ _ Hsys)).
  cbn [top_package Ascii.eqb Bool.eqb].
  set (ns1 := <["sys" := VModule "sys"]> (ns k)).
  assert (Hprint1 : ns1 !! "print" = None)
    by (subst ns1; by rewrite lookup_insert_ne).
  assert (Hsys1 : ns1 !! "sys" = Some (VModule "sys"))
    by (subst ns1; by rewrite lookup_insert_eq).
  assert (Hnp1 : ns1 !! "np" = Some (VModule "numpy"))
    by (subst ns1; by rewrite lookup_insert_ne).
  assert (Hmpl1 : ns1 !! "mpl" = Some (VModule "matplotlib"))
    by (subst ns1; by rewrite lookup_insert_ne).
  assert (Hpd1 : ns1 !! "pd" = Some (VModule "pandas"))
    by (subst ns1; by rewrite lookup_insert_ne).
  rewrite (exec_body_step _ _ _ _ _
             (exec_print_heading lib _ (MkKernel ns1 _ _ _) Hprint1)).
  cbn [ns rcParams stdout canvas].
  rewrite (exec_body_step _ _ _ _ _
             (exec_print_version lib _ _ _ _ _
                (MkKernel ns1 _ _ _) Hprint1 Hsys1 Hpy)).
  cbn [ns rcParams stdout canvas].
  rewrite (exec_body_step _ _ _ _ _
             (exec_print_version lib _ _ _ _ _
                (MkKernel ns1 _ _ _) Hprint1 Hnp1 Hnpv)).
  cbn [ns rcParams stdout canvas].
  rewrite (exec_body_step _ _ _ _ _
             (exec_print_version lib _ _ _ _ _
                (MkKernel ns1 _ _ _) Hprint1 Hmpl1 Hmplv)).
  cbn [ns rcParams stdout canvas].
  rewrite (exec_body_step _ _ _ _ _
             (exec_print_version lib _ _ _ _ _
                (MkKernel ns1 _ _ _) Hprint1 Hpd1 Hpdv)).
  cbn [ns rcParams stdout canvas exec_body ret].
  by rewrite <- !app_assoc.
Qed.

(** Lookups in a namespace built by insertions. *)
Ltac lookup_insert :=
  repeat (rewrite lookup_insert_ne by done); rewrite ?lookup_insert_eq; try done.

(** The whole document, run top to bottom. *)
Lemma run_effect lib k :
  supports lib ->
  ns k !! "print" = None ->
  exists rc' py npv mplv pdv,
    module_attr lib "sys" "version" = inr (VStr py) /\
    module_attr lib "numpy" "__version__" = inr (VStr npv) /\
    module_attr lib "matplotlib" "__version__" = inr (VStr mplv) /\
    module_attr lib "pandas" "__version__" = inr (VStr pdv) /\
    run lib brittle_faults_p2 k =
    (MkKernel (<["sys" := VModule "sys"]>
                 (<["mpl" := VModule "matplotlib"]>
                    (<["plt" := VModule "matplotlib.pyplot"]>
                       (<["pd" := VModule "pandas"]>
                          (<["np" := VModule "numpy"]> (ns k))))))
              rc'
              (stdout k ++ [ "Notebook tested using:";
                             "Python " +:+ py;
                             "Numpy " +:+ npv;
                             "Matplotlib " +:+ mplv;
                             "Pandas " +:+ pdv ])
              (canvas k), Done tt).
Proof.
  intros Hlib Hprint.
  destruct (setup_effect lib k Hlib) as (rc0 & w1 & w2 & w3 & _ & _ & _ & Hsetup).
  set (k1 := MkKernel _ _ _ _) in Hsetup.
  assert (Hv : exists py npv mplv pdv,
             module_attr lib "sys" "version" = inr (VStr py) /\
             module_attr lib "numpy" "__version__" = inr (VStr npv) /\
             module_attr lib "matplotlib" "__version__" = inr (VStr mplv) /\
             module_attr lib "pandas" "__version__" = inr (VStr pdv) /\
             run_cell lib versions_cell k1 =
             (MkKernel (<["sys" := VModule "sys"]> (ns k1)) (rcParams k1)
                (stdout k1 ++ [ "Notebook tested using:";
                                "Python " +:+ py;
                                "Numpy " +:+ npv;
                                "Matplotlib " +:+ mplv;
                                "Pandas " +:+ pdv ])
                (canvas k1), Done tt)).
  { apply versions_effect; [exact Hlib|subst k1; cbn [ns]..].
    all: lookup_insert. }
  destruct Hv as (py & npv & mplv & pdv & Hpy & Hnpv & Hmplv & Hpdv & Hversions).
  exists (rcParams k1), py, npv, mplv, pdv. repeat (split; [assumption|]).
  unfold brittle_faults_p2. cbn [run].
  rewrite (bind_done _ _ k k tt) by reflexivity.
  rewrite (bind_done _ _ k k1 tt Hsetup).
  rewrite (bind_done _ _ k1 k1 tt) by reflexivity.
  rewrite (bind_done _ _ k1 _ tt Hversions). reflexivity.
Qed.

(** C2, as amended: run top to bottom on an installation that supports it,
    from a kernel where [print] is not rebound, the notebook completes; it
    imports numpy, matplotlib.pyplot, matplotlib and pandas, and prints a
    heading and the four versions; it binds no sequence of values the
    kernel did not hold and leaves the plotting canvas as it was: no
    equation is evaluated and no chart is rendered. *)
Theorem brittle_faults_p2_run lib k :
  supports lib ->
  ns k !! "print" = None ->
  let r := run lib brittle_faults_p2 k in
  r.2 = Done tt /\
  imports r.1 "numpy" /\ imports r.1 "matplotlib.pyplot" /\
  imports r.1 "matplotlib" /\ imports r.1 "pandas" /\
  (exists py npv mplv pdv,
     module_attr lib "sys" "version" = inr (VStr py) /\
     module_attr lib "numpy" "__version__" = inr (VStr npv) /\
     module_attr lib "matplotlib" "__version__" = inr (VStr mplv) /\
     module_attr lib "pandas" "__version__" = inr (VStr pdv) /\
     printed k r.1 = [ "Notebook tested using:";
                       "Python " +:+ py;
                       "Numpy " +:+ npv;
                       "Matplotlib " +:+ mplv;
                       "Pandas " +:+ pdv ]) /\
  (holds_curve r.1 -> holds_curve k) /\
  canvas r.1 = canvas k.
Proof.
  intros Hlib Hprint r.
  destruct (run_effect lib k Hlib Hprint)
    as (rc' & py & npv & mplv & pdv & Hpy & Hnpv & Hmplv & Hpdv & Hrun).
  subst r. rewrite Hrun. cbn [fst snd ns canvas].
  split; [reflexivity|].
  split; [exists "np"; cbn [ns]; lookup_insert|].
  split; [exists "plt"; cbn [ns]; lookup_insert|].
  split; [exists "mpl"; cbn [ns]; lookup_insert|].
  split; [exists "pd"; cbn [ns]; lookup_insert|].
  split.
  { exists py, npv, mplv, pdv. repeat (split; [assumption|]).
    unfold printed. cbn [stdout]. by rewrite drop_app_length. }
  split; [|reflexivity].
  intros (x & xs & Hx). exists x, xs. cbn [ns] in Hx.
  repeat (rewrite lookup_insert in Hx; case_decide; [discriminate Hx|]).
  exact Hx.
Qed.

Lemma brittle_faults_p2_run_witness :
  supports installation /\ ns fresh !! "print" = None /\
  let r := run installation brittle_faults_p2 fresh in
  r.2 = Done tt /\
  imports r.1 "numpy" /\ imports r.1 "matplotlib.pyplot" /\
  imports r.1 "matplotlib" /\ imports r.1 "pandas" /\
  (exists py npv mplv pdv,
     module_attr installation "sys" "version" = inr (VStr py) /\
     module_attr installation "numpy" "__version__" = inr (VStr npv) /\
     module_attr installation "matplotlib" "__version__" = inr (VStr mplv) /\
     module_attr installation "pandas" "__version__" = inr (VStr pdv) /\
     printed fresh r.1 = [ "Notebook tested using:";
                           "Python " +:+ py;
                           "Numpy " +:+ npv;
                           "Matplotlib " +:+ mplv;
                           "Pandas " +:+ pdv ]) /\
  (holds_curve r.1 -> holds_curve fresh) /\
  canvas r.1 = canvas fresh.
Proof.
  assert (Hprint : ns fresh !! "print" = None) by reflexivity.
  split; [exact installation_supports|]. split; [exact Hprint|].
  exact (brittle_faults_p2_run installation fresh installation_supports Hprint).
Defined.

(** The run of the notebook on the sample installation binds no sequence
    of values and puts nothing on the canvas. *)
Lemma sample_run_holds_no_curve :
  ~ holds_curve (run installation brittle_faults_p2 fresh).1.
Proof.
  destruct (run_effect installation fresh installation_supports eq_refl)
    as (rc' & py & npv & mplv & pdv & _ & _ & _ & _ & Hrun).
  rewrite Hrun. intros (x & xs & Hx). cbn [fst ns fresh] in Hx.
  repeat (rewrite lookup_insert in Hx; case_decide; [discriminate Hx|]).
  by rewrite lookup_empty in Hx.
Qed.

Lemma sample_run_shows_no_chart :
  ~ shows_annotated_chart (run installation brittle_faults_p2 fresh).1.
Proof.
  destruct (run_effect installation fresh installation_supports eq_refl)
    as (rc' & py & npv & mplv & pdv & _ & _ & _ & _ & Hrun).
  rewrite Hrun. intros (fig & Hin & _). cbn [fst canvas fresh] in Hin.
  by apply not_elem_of_nil in Hin.
Qed.

(** C2 fails on the notebook: its run on the sample installation does not
    do what the description says of every notebook, it neither evaluates
    an equation over a range nor renders a chart. *)
Lemma brittle_faults_p2_not_as_described :
  ~ as_described installation brittle_faults_p2.
Proof.
  intros (_ & _ & _ & _ & _ & Hchart).
  exact (sample_run_shows_no_chart Hchart).
Qed.

(** A failing library call ends the statement that makes it with the
    exception the library raised. *)
Lemma exec_import_raises lib m alias e k :
  find_module lib m = Some e -> exec lib (SImport m alias) k = (k, Raised e).
Proof. intros H. cbn [exec]. by rewrite H. Qed.


Lemma call_style_use_raises lib s e k :
  style_settings lib s = inl e ->
  call lib (VFunction FStyleUse) [s] k = (k, Raised e).
Proof. intros H. cbn [call]. unfold bind. by rewrite H. Qed.

Lemma rc_setitem_raises lib key val e k :
  rc_validate lib key val = inl e ->
  rc_setitem lib key val k = (k, Raised e).
Proof. intros H. unfold rc_setitem. by rewrite H. Qed.

Lemma exec_body_raised lib body k k' e :
  exec_body lib body k = (k', Raised e) <->
  exists pre s post k1,
    body = (pre ++ s :: post)%list /\
    exec_body lib pre k = (k1, Done tt) /\
    exec lib s k1 = (k', Raised e).
Proof.
  split.
  - revert k. induction body as [|s rest IH]; intros k Hrun; [discriminate Hrun|].
    cbn [exec_body] in Hrun. unfold bind in Hrun.
    destruct (exec lib s k) as [k1 [[]|e1|]] eqn:Hs.
    + destruct (IH k1 Hrun) as (pre & s' & post & k2 & -> & Hpre & Hs').
      exists (s :: pre), s', post, k2. split; [reflexivity|]. split; [|exact Hs'].
      cbn [exec_body]. unfold bind. by rewrite Hs.
    + injection Hrun as -> ->. by exists [], s, rest, k.
    + discriminate Hrun.
  - intros (pre & s & post & k1 & -> & Hpre & Hs). revert k Hpre.
    induction pre as [|s0 pre IH]; intros k Hpre.
    + injection Hpre as ->. cbn [app exec_body]. unfold bind. by rewrite Hs.
    + cbn [app exec_body] in *. unfold bind in *.
      destruct (exec lib s0 k) as [k0 [[]| |]]; try discriminate Hpre.
      by apply IH.
Qed.

(** A code cell ends with the exception [e] exactly when one of its
    statements, run after the statements before it completed, raised [e],
    and the kernel is as that statement left it.  The exception is a
    default one. *)
Lemma exceptions_propagate lib id body k k' e :
  (run_cell lib (Code id body) k = (k', Raised e) <->
   exists pre s post k1,
     body = (pre ++ s :: post)%list /\
     exec_body lib pre k = (k1, Done tt) /\
     exec lib s k1 = (k', Raised e)) /\
  (run_cell lib (Code id body) k = (k', Raised e) -> default_error lib e).
Proof.
  cbn [run_cell]. split; [apply exec_body_raised|].
  intros Hrun. apply exec_body_raised in Hrun as (pre & s & post & k1 & _ & _ & Hs).
  by eapply plain_exec.
Qed.

(** The same holds of the run of a whole document. *)
Lemma run_raised lib nb k k' e :
  run lib nb k = (k', Raised e) <->
  exists pre s post k1,
    statements nb = (pre ++ s :: post)%list /\
    exec_body lib pre k = (k1, Done tt) /\
    exec lib s k1 = (k', Raised e).
Proof. rewrite run_statements. apply exec_body_raised. Qed.

(** An import the installation cannot satisfy stops the notebook with the
    exception of the import. *)
Lemma run_without_numpy lib e k :
  find_module lib "numpy" = Some e ->
  run lib brittle_faults_p2 k = (k, Raised e).
Proof.
  intros H. apply run_raised.
  exists [], (SImport "numpy" (Some "np")),
         (tail (statements brittle_faults_p2)), k.
  split; [reflexivity|]. split; [reflexivity|]. by apply exec_import_raises.
Qed.


Lemma versions_cell_reads_setup_cell :
  ~ independent_of installation setup_cell versions_cell.
Proof. intros H. specialize (H fresh). vm_compute in H. discriminate H. Qed.





(** The notebook reads one name it does not bind. *)
Lemma free_names_brittle_faults_p2 x :
  x ∈ free_names (statements brittle_faults_p2) <-> x = "print".
Proof.
  assert (H : free_names (statements brittle_faults_p2) =
              ["print"; "print"; "print"; "print"; "print"]) by reflexivity.
  rewrite H. set_solver.
Qed.

(** From two kernels that resolve [print] alike, whatever else they hold,
    the run ends the same way and prints the same lines. *)
Lemma run_independent lib k1 k2 :
  ns k1 !! "print" = ns k2 !! "print" ->
  (run lib brittle_faults_p2 k1).2 = (run lib brittle_faults_p2 k2).2 /\
  printed k1 (run lib brittle_faults_p2 k1).1 =
  printed k2 (run lib brittle_faults_p2 k2).1.
Proof.
  intros Hprint. rewrite !run_statements.
  destruct (uniform_exec_body lib (statements brittle_faults_p2) k1 k2)
    as (Hst & _ & l & Hl1 & Hl2).
  { intros x Hx. apply free_names_brittle_faults_p2 in Hx as ->. exact Hprint. }
  split; [exact Hst|]. unfold printed.
  by rewrite Hl1, Hl2, !drop_app_length.
Qed.

Lemma run_independent_witness :
  let other :=
    MkKernel {[ "np" := VStr "other" ]} {[ "axes.facecolor" := "black" ]}
             ["earlier output"] [Figure [] ["note"]] in
  ns fresh !! "print" = ns other !! "print" /\
  (run installation brittle_faults_p2 fresh).2 =
  (run installation brittle_faults_p2 other).2 /\
  printed fresh (run installation brittle_faults_p2 fresh).1 =
  printed other (run installation brittle_faults_p2 other).1.
Proof.
  intros other.
  assert (Hprint : ns fresh !! "print" = ns other !! "print") by reflexivity.
  split; [exact Hprint|].
  exact (run_independent installation fresh other Hprint).
Defined.

End NotebookFacts.

(** ** What the cells change, and what they leave alone *)

Module EffectsFacts.
Import Kernel Cells Analysis MonadFacts CellsFacts Notebook Installed Effects.
Import NotebookFacts.
Local Open Scope string_scope.
#[local] Set Warnings "-clear-no-such-hyp".

Lemma within_refl X k : within X k k.
Proof. by repeat split. Qed.

Lemma within_trans X k1 k2 k3 :
  within X k1 k2 -> within X k2 k3 -> within X k1 k3.
Proof.
  intros (Hns1 & Hc1 & Hp1) (Hns2 & Hc2 & Hp2). repeat split.
  - intros x Hx. by rewrite Hns2, Hns1.
  - by rewrite Hc2.
  - by etrans.
Qed.

Lemma within_mono X Y k k' : X ⊆ Y -> within X k k' -> within Y k k'.
Proof.
  intros Hsub (Hns & Hc & Hp). repeat split; [|done..].
  intros x Hx. apply Hns. set_solver.
Qed.

Lemma keeps_mono {A} X Y (m : M A) :
  X ⊆ Y -> keeps (within X) m -> keeps (within Y) m.
Proof. intros Hsub Hm k. by eapply within_mono. Qed.

Lemma keeps_ret {A} X (a : A) : keeps (within X) (ret a).
Proof. intros k. apply within_refl. Qed.

Lemma keeps_raise {A} X e : keeps (within X) (@raise A e).
Proof. intros k. apply within_refl. Qed.

Lemma keeps_unsupported {A} X : keeps (within X) (@unsupported A).
Proof. intros k. apply within_refl. Qed.

Lemma keeps_lift {A} X (r : exn + A) : keeps (within X) (lift r).
Proof. destruct r; [apply keeps_raise | apply keeps_ret]. Qed.

Lemma keeps_bind {A B} X (m : M A) (f : A -> M B) :
  keeps (within X) m -> (forall a, keeps (within X) (f a)) ->
  keeps (within X) (bind m f).
Proof.
  intros Hm Hf k. unfold bind. specialize (Hm k).
  destruct (m k) as [k1 [a| |]]; simpl in *; [|done..].
  eapply within_trans; [exact Hm | apply Hf].
Qed.

Lemma keeps_lookup_name X x : keeps (within X) (lookup_name x).
Proof.
  intros k. unfold lookup_name.
  destruct (ns k !! x); [|destruct (builtins x)]; apply within_refl.
Qed.

Lemma keeps_write_line X l : keeps (within X) (write_line l).
Proof.
  intros k. unfold write_line. simpl. repeat split; simpl; [done..|].
  by apply prefix_app_r.
Qed.

Lemma keeps_rc_setitem lib X key val : keeps (within X) (rc_setitem lib key val).
Proof.
  intros k. unfold rc_setitem. destruct (rc_validate lib key val); simpl;
    by repeat split.
Qed.

Lemma keeps_rc_update lib X settings : keeps (within X) (rc_update lib settings).
Proof.
  induction settings as [|[key val] rest IH]; simpl; [apply keeps_ret|].
  apply keeps_bind; [apply keeps_rc_setitem|]. intros _. exact IH.
Qed.

Lemma keeps_getattr lib X v a : keeps (within X) (getattr lib v a).
Proof.
  destruct v; cbn [getattr]; try apply keeps_lift;
    (destruct (existsb _ _); [apply keeps_raise | apply keeps_unsupported]).
Qed.

Lemma keeps_call lib X f args : keeps (within X) (call lib f args).
Proof.
  destruct f as [| | | | | |[]]; simpl; try apply keeps_raise.
  - apply keeps_bind; [apply keeps_write_line|]. intros _. apply keeps_ret.
  - destruct args as [|s [|]]; try apply keeps_unsupported.
    apply keeps_bind; [apply keeps_lift|]. intros settings.
    apply keeps_bind; [apply keeps_rc_update|]. intros _. apply keeps_ret.
Qed.

(** An expression binds no name. *)
Lemma keeps_eval lib X e : keeps (within X) (eval lib e).
Proof.
  induction e as [x|s|e a IHe|f args IHf IHargs] using expr_ind'; cbn [eval].
  - apply keeps_lookup_name.
  - apply keeps_ret.
  - apply keeps_bind; [exact IHe|]. intros v. apply keeps_getattr.
  - apply keeps_bind; [exact IHf|]. intros fv.
    apply keeps_bind; [|intros vs; apply keeps_call].
    induction IHargs as [|a args Ha _ IH]; [apply keeps_ret|].
    apply keeps_bind; [exact Ha|]. intros v.
    apply keeps_bind; [exact IH|]. intros vs. apply keeps_ret.
Qed.

Lemma keeps_exec lib s : keeps (within (binds_of s)) (exec lib s).
Proof.
  destruct s as [m alias|obj key val|e]; cbn [exec].
  - destruct (find_module lib m); [apply keeps_raise|].
    intros k. unfold bind_name. simpl. repeat split; simpl; [|done..].
    intros x Hx. apply lookup_insert_ne. set_solver.
  - apply keeps_bind; [apply keeps_eval|]. intros v.
    apply keeps_bind; [apply keeps_eval|]. intros o.
    apply keeps_bind; [apply keeps_eval|]. intros i.
    destruct o; try apply keeps_unsupported; try (apply keeps_raise).
    destruct i; try apply keeps_unsupported.
    destruct v; try apply keeps_unsupported.
    apply keeps_rc_setitem.
  - apply keeps_bind; [apply keeps_eval|]. intros v. apply keeps_ret.
Qed.

Lemma keeps_exec_body lib body :
  keeps (within (flat_map binds_of body)) (exec_body lib body).
Proof.
  induction body as [|s rest IH]; cbn [exec_body flat_map]; [apply keeps_ret|].
  apply keeps_bind.
  - eapply keeps_mono; [|apply keeps_exec]. set_solver.
  - intros _. eapply keeps_mono; [|exact IH]. set_solver.
Qed.

(** X1.  However the setup cell ends, and on any installation, it changes
    no name other than [np], [pd], [plt] and [mpl], leaves the canvas as
    it was and erases nothing of what was printed. *)
Theorem setup_cell_within lib k :
  within ["np"; "pd"; "plt"; "mpl"] k (run_cell lib setup_cell k).1.
Proof. apply (keeps_exec_body lib (body_of setup_cell)). Qed.

(** The run of any document changes only the names its import statements
    bind. *)
Lemma run_keeps lib nb k :
  within (flat_map binds_of (statements nb)) k (run lib nb k).1.
Proof. rewrite run_statements. apply keeps_exec_body. Qed.

(** X2.  The run of the whole notebook, however it ends and on any
    installation, changes no name other than [np], [pd], [plt], [mpl] and
    [sys], never touches the canvas and erases nothing of what was
    printed. *)
Theorem brittle_faults_p2_within lib k :
  within ["np"; "pd"; "plt"; "mpl"; "sys"] k (run lib brittle_faults_p2 k).1.
Proof. apply (run_keeps lib brittle_faults_p2). Qed.

(** The state [rcParams.update] leaves, whether or not it completes. *)
Lemma rc_update_state lib settings k :
  (rc_update lib settings k).1 =
  MkKernel (ns k) (styled lib settings (rcParams k)) (stdout k) (canvas k).
Proof.
  revert k. induction settings as [|[key val] rest IH]; intros k.
  - by destruct k.
  - cbn [rc_update styled]. unfold bind, rc_setitem.
    destruct (rc_validate lib key val) as [e|v]; [by destruct k|].
    apply IH.
Qed.

Lemma styled_lookup lib settings rc key :
  Forall (fun kv => exists v, rc_validate lib kv.1 kv.2 = inr v) settings ->
  styled lib settings rc !! key =
  match style_value lib settings key with
  | Some v => Some v
  | None => rc !! key
  end.
Proof.
  intros Hvalid. revert rc.
  induction Hvalid as [|[key' val] rest [v Hv] _ IH]; intros rc; [reflexivity|].
  simpl in Hv. cbn [styled style_value]. rewrite Hv, IH.
  destruct (style_value lib rest key); [reflexivity|].
  rewrite lookup_insert. by destruct (decide (key' = key)).
Qed.

Lemma coloured_lookup w1 w2 w3 rc key :
  key ∉ colour_keys -> coloured w1 w2 w3 rc !! key = rc !! key.
Proof.
  intros Hkey. unfold coloured, colour_keys in *.
  rewrite !lookup_insert_ne; [done|set_solver..].
Qed.

Lemma exec_style_use_styled lib style settings k :
  ns k !! "mpl" = Some (VModule "matplotlib") ->
  module_attr lib "matplotlib" "style" = inr (VModule "matplotlib.style") ->
  module_attr lib "matplotlib.style" "use" = inr (VFunction FStyleUse) ->
  style_settings lib (VStr style) = inr settings ->
  Forall (fun kv => exists v, rc_validate lib kv.1 kv.2 = inr v) settings ->
  exec lib (SExpr (ECall (EAttr (EAttr (EName "mpl") "style") "use")
                         [EStr style])) k =
  (MkKernel (ns k) (styled lib settings (rcParams k)) (stdout k) (canvas k),
   Done tt).
Proof.
  intros Hmpl Hstyle Huse Hset Hvalid.
  destruct (exec_style_use lib style settings k Hmpl Hstyle Huse Hset Hvalid)
    as [rc' Hexec].
  rewrite Hexec. f_equal.
  assert (Hstate : (exec lib (SExpr (ECall (EAttr (EAttr (EName "mpl") "style") "use")
                                           [EStr style])) k).1 =
                   (rc_update lib settings k).1).
  { cbn [exec eval]. unfold bind at 1.
    rewrite (bind_done _ _ k k (VFunction FStyleUse)).
    2:{ rewrite (bind_done _ _ k k (VModule "matplotlib.style")).
        - cbn [getattr]. by rewrite Huse.
        - by apply (eval_module_attr lib "mpl" "style" "matplotlib"). }
    rewrite (bind_done _ _ k k [VStr style]) by reflexivity.
    cbn [call]. rewrite (bind_done _ _ k k settings) by (by rewrite Hset).
    unfold bind. by destruct (rc_update lib settings k) as [k' [[]| |]]. }
  rewrite Hexec, rc_update_state in Hstate. exact Hstate.
Qed.

(** The setup cell on a supporting installation, every component named. *)
Lemma setup_explicit lib settings k :
  supports lib ->
  style_settings lib (VStr "fivethirtyeight") = inr settings ->
  exists w1 w2 w3,
    rc_validate lib "figure.facecolor" "white" = inr w1 /\
    rc_validate lib "axes.facecolor" "white" = inr w2 /\
    rc_validate lib "axes.edgecolor" "white" = inr w3 /\
    Forall (fun kv => exists v, rc_validate lib kv.1 kv.2 = inr v) settings /\
    run_cell lib setup_cell k =
    (MkKernel (bound_by_setup (ns k))
              (coloured w1 w2 w3 (styled lib settings (rcParams k)))
              (stdout k) (canvas k), Done tt).
Proof.
  intros [Hnp Hpd Hplt Hmpl Hsys Hstyle Huse Hrc _ _ _ _
          (settings' & Hset' & Hvalid) [w1 Hw1] [w2 Hw2] [w3 Hw3]] Hset.
  assert (settings' = settings) as -> by congruence.
  exists w1, w2, w3. repeat (split; [assumption|]).
  unfold setup_cell, run_cell, bound_by_setup, coloured.
  rewrite (exec_body_step _ _ _ _ _ (exec_import_as lib _ _ _ Hnp)).
  rewrite (exec_body_step _ _ _ _ _ (exec_import_as lib _ _ _ Hpd)).
  rewrite (exec_body_step _ _ _ _ _ (exec_import_as lib _ _ _ Hplt)).
  rewrite (exec_body_step _ _ _ _ _ (exec_import_as lib _ _ _ Hmpl)).
  cbn [ns rcParams stdout canvas].
  set (ns4 := <["mpl" := VModule "matplotlib"]> _).
  assert (Hm : ns4 !! "mpl" = Some (VModule "matplotlib"))
    by (subst ns4; by rewrite lookup_insert_eq).
  rewrite (exec_body_step _ _ _ _ _
             (exec_style_use_styled lib _ settings (MkKernel ns4 _ _ _)
                Hm Hstyle Huse Hset Hvalid)).
  cbn [ns rcParams stdout canvas].
  rewrite (exec_body_step _ _ _ _ _
             (exec_set_rc lib _ _ "matplotlib" w1
                (MkKernel ns4 _ _ _) Hm Hrc Hw1)).
  cbn [ns rcParams stdout canvas].
  rewrite (exec_body_step _ _ _ _ _
             (exec_set_rc lib _ _ "matplotlib" w2
                (MkKernel ns4 _ _ _) Hm Hrc Hw2)).
  cbn [ns rcParams stdout canvas].
  rewrite (exec_body_step _ _ _ _ _
             (exec_set_rc lib _ _ "matplotlib" w3
                (MkKernel ns4 _ _ _) Hm Hrc Hw3)).
  reflexivity.
Qed.

(** Binding the four names again changes nothing. *)
Lemma bound_by_setup_again names :
  bound_by_setup (bound_by_setup names) = bound_by_setup names.
Proof.
  unfold bound_by_setup.
  do 4 (rewrite insert_id by lookup_insert). reflexivity.
Qed.

(** Applying the style and the colours again changes nothing. *)
Lemma coloured_styled_again lib settings w1 w2 w3 rc :
  Forall (fun kv => exists v, rc_validate lib kv.1 kv.2 = inr v) settings ->
  coloured w1 w2 w3 (styled lib settings (coloured w1 w2 w3 (styled lib settings rc))) =
  coloured w1 w2 w3 (styled lib settings rc).
Proof.
  intros Hvalid. apply map_eq. intros key.
  destruct (decide (key ∈ colour_keys)) as [Hin|Hout].
  - apply list_elem_of_In in Hin. simpl in Hin.
    destruct Hin as [<-|[<-|[<-|[]]]]; unfold coloured; lookup_insert; lookup_insert.
  - rewrite (coloured_lookup _ _ _ _ key Hout).
    rewrite (styled_lookup lib settings _ key Hvalid).
    rewrite (coloured_lookup _ _ _ (styled lib settings rc) key Hout).
    rewrite (styled_lookup lib settings rc key Hvalid).
    by destruct (style_value lib settings key).
Qed.

(** X3.  On a supporting installation the setup cell changes no entry of
    [rcParams] but those of the style and the three colours: a key that is
    not a colour key holds what the style sets for it, and what it held
    before when the style does not set it. *)
Theorem setup_cell_rcParams lib settings k key :
  supports lib ->
  style_settings lib (VStr "fivethirtyeight") = inr settings ->
  key ∉ colour_keys ->
  rcParams (run_cell lib setup_cell k).1 !! key =
  match style_value lib settings key with
  | Some v => Some v
  | None => rcParams k !! key
  end.
Proof.
  intros Hlib Hset Hkey.
  destruct (setup_explicit lib settings k Hlib Hset)
    as (w1 & w2 & w3 & _ & _ & _ & Hvalid & Hrun).
  rewrite Hrun. cbn [fst rcParams].
  by rewrite coloured_lookup, styled_lookup.
Qed.

Lemma setup_cell_rcParams_witness :
  supports installation /\
  style_settings installation (VStr "fivethirtyeight") = inr fivethirtyeight /\
("lines.linewidth" ∉ colour_keys) /\
  (rcParams (run_cell installation setup_cell fresh).1 !! "lines.linewidth" =
   match style_value installation fivethirtyeight "lines.linewidth" with
   | Some v => Some v
   | None => rcParams fresh !! "lines.linewidth"
   end).
Proof.
  assert (Hset : style_settings installation (VStr "fivethirtyeight") =
                 inr fivethirtyeight) by reflexivity.
  assert (Hkey : "lines.linewidth" ∉ colour_keys).
  { intros Hin. apply list_elem_of_In in Hin. simpl in Hin.
    destruct Hin as [H|[H|[H|[]]]]; discriminate H. }
  split; [exact installation_supports|]. split; [exact Hset|].
  split; [exact Hkey|].
  exact (setup_cell_rcParams installation fivethirtyeight fresh
           "lines.linewidth" installation_supports Hset Hkey).
Defined.

(** X4.  Running the setup cell a second time changes nothing: the kernel
    and the outcome are those of the first run. *)
Theorem setup_cell_idempotent lib k :
  supports lib ->
  run_cell lib setup_cell (run_cell lib setup_cell k).1 =
  run_cell lib setup_cell k.
Proof.
  intros Hlib. destruct (style_known lib Hlib) as (settings & Hset & _).
  destruct (setup_explicit lib settings k Hlib Hset)
    as (w1 & w2 & w3 & Hw1 & Hw2 & Hw3 & Hvalid & Hrun).
  rewrite Hrun. cbn [fst].
  destruct (setup_explicit lib settings
              (MkKernel (bound_by_setup (ns k))
                        (coloured w1 w2 w3 (styled lib settings (rcParams k)))
                        (stdout k) (canvas k)) Hlib Hset)
    as (w1' & w2' & w3' & Hw1' & Hw2' & Hw3' & _ & Hrun').
  rewrite Hrun'. cbn [ns rcParams stdout canvas].
  assert (w1' = w1) as -> by congruence.
  assert (w2' = w2) as -> by congruence.
  assert (w3' = w3) as -> by congruence.
  by rewrite bound_by_setup_again, coloured_styled_again.
Qed.

Lemma setup_cell_idempotent_witness :
  supports installation /\
  run_cell installation setup_cell (run_cell installation setup_cell fresh).1 =
  run_cell installation setup_cell fresh.
Proof.
  split; [exact installation_supports|].
  exact (setup_cell_idempotent installation fresh installation_supports).
Defined.

Lemma exec_body_stop lib s rest k k' e :
  exec lib s k = (k', Raised e) ->
  exec_body lib (s :: rest) k = (k', Raised e).
Proof. intros H. cbn [exec_body]. unfold bind. by rewrite H. Qed.

(** X5.  When one of the four modules cannot be imported the setup cell
    ends with the exception of an import, before the style is applied:
    [rcParams], the printed lines and the canvas are as they were. *)
Theorem setup_cell_missing_module lib k m e0 :
  m ∈ ["numpy"; "pandas"; "matplotlib.pyplot"; "matplotlib"] ->
  find_module lib m = Some e0 ->
  exists m' e,
    m' ∈ ["numpy"; "pandas"; "matplotlib.pyplot"; "matplotlib"] /\
    find_module lib m' = Some e /\
    (run_cell lib setup_cell k).2 = Raised e /\
    rcParams (run_cell lib setup_cell k).1 = rcParams k /\
    stdout (run_cell lib setup_cell k).1 = stdout k /\
    canvas (run_cell lib setup_cell k).1 = canvas k.
Proof.
  intros Hm Hmissing. unfold setup_cell, run_cell.
  destruct (find_module lib "numpy") as [e|] eqn:Hnp.
  { exists "numpy", e. split; [set_solver|]. split; [done|].
    by rewrite (exec_body_stop _ _ _ _ _ _ (exec_import_raises lib _ _ e _ Hnp)). }
  rewrite (exec_body_step _ _ _ _ _ (exec_import_as lib _ _ _ Hnp)).
  destruct (find_module lib "pandas") as [e|] eqn:Hpd.
  { exists "pandas", e. split; [set_solver|]. split; [done|].
    by rewrite (exec_body_stop _ _ _ _ _ _ (exec_import_raises lib _ _ e _ Hpd)). }
  rewrite (exec_body_step _ _ _ _ _ (exec_import_as lib _ _ _ Hpd)).
  destruct (find_module lib "matplotlib.pyplot") as [e|] eqn:Hplt.
  { exists "matplotlib.pyplot", e. split; [set_solver|]. split; [done|].
    by rewrite (exec_body_stop _ _ _ _ _ _ (exec_import_raises lib _ _ e _ Hplt)). }
  rewrite (exec_body_step _ _ _ _ _ (exec_import_as lib _ _ _ Hplt)).
  destruct (find_module lib "matplotlib") as [e|] eqn:Hmpl.
  { exists "matplotlib", e. split; [set_solver|]. split; [done|].
    by rewrite (exec_body_stop _ _ _ _ _ _ (exec_import_raises lib _ _ e _ Hmpl)). }
  exfalso. apply list_elem_of_In in Hm. simpl in Hm.
  destruct Hm as [<-|[<-|[<-|[<-|[]]]]]; congruence.
Qed.

Lemma setup_cell_missing_module_witness :
  "pandas" ∈ ["numpy"; "pandas"; "matplotlib.pyplot"; "matplotlib"] /\
  find_module (without "pandas" installation) "pandas" =
    Some (ModuleNotFoundError "pandas") /\
  exists m' e,
    m' ∈ ["numpy"; "pandas"; "matplotlib.pyplot"; "matplotlib"] /\
    find_module (without "pandas" installation) m' = Some e /\
    (run_cell (without "pandas" installation) setup_cell fresh).2 = Raised e /\
    rcParams (run_cell (without "pandas" installation) setup_cell fresh).1 =
      rcParams fresh /\
    stdout (run_cell (without "pandas" installation) setup_cell fresh).1 =
      stdout fresh /\
    canvas (run_cell (without "pandas" installation) setup_cell fresh).1 =
      canvas fresh.
Proof.
  assert (Hm : "pandas" ∈ ["numpy"; "pandas"; "matplotlib.pyplot"; "matplotlib"]).
  { apply list_elem_of_In. simpl. tauto. }
  assert (Hmissing : find_module (without "pandas" installation) "pandas" =
                     Some (ModuleNotFoundError "pandas")) by reflexivity.
  split; [exact Hm|]. split; [exact Hmissing|].
  exact (setup_cell_missing_module (without "pandas" installation) fresh
           "pandas" _ Hm Hmissing).
Defined.

(** X6.  When the installation does not know the style, the setup cell
    ends with the exception of [style.use]: the four names are bound,
    [rcParams] is untouched and the three colours are not assigned. *)
Theorem setup_cell_unknown_style lib k e :
  find_module lib "numpy" = None ->
  find_module lib "pandas" = None ->
  find_module lib "matplotlib.pyplot" = None ->
  find_module lib "matplotlib" = None ->
  module_attr lib "matplotlib" "style" = inr (VModule "matplotlib.style") ->
  module_attr lib "matplotlib.style" "use" = inr (VFunction FStyleUse) ->
  style_settings lib (VStr "fivethirtyeight") = inl e ->
  run_cell lib setup_cell k =
  (MkKernel (bound_by_setup (ns k)) (rcParams k) (stdout k) (canvas k), Raised e).
Proof.
  intros Hnp Hpd Hplt Hmpl Hstyle Huse Hset.
  unfold setup_cell, run_cell, bound_by_setup.
  rewrite (exec_body_step _ _ _ _ _ (exec_import_as lib _ _ _ Hnp)).
  rewrite (exec_body_step _ _ _ _ _ (exec_import_as lib _ _ _ Hpd)).
  rewrite (exec_body_step _ _ _ _ _ (exec_import_as lib _ _ _ Hplt)).
  rewrite (exec_body_step _ _ _ _ _ (exec_import_as lib _ _ _ Hmpl)).
  cbn [ns rcParams stdout canvas].
  set (ns4 := <["mpl" := VModule "matplotlib"]> _).
  set (k4 := MkKernel ns4 (rcParams k) (stdout k) (canvas k)).
  assert (Hm : ns k4 !! "mpl" = Some (VModule "matplotlib"))
    by (subst k4 ns4; cbn [ns]; by rewrite lookup_insert_eq).
  apply exec_body_stop. cbn [exec eval]. unfold bind at 1.
  rewrite (bind_done _ _ k4 k4 (VFunction FStyleUse)).
  2:{ rewrite (bind_done _ _ k4 k4 (VModule "matplotlib.style")).
      - cbn [getattr]. by rewrite Huse.
      - by apply (eval_module_attr lib "mpl" "style" "matplotlib"). }
  rewrite (bind_done _ _ k4 k4 [VStr "fivethirtyeight"]) by reflexivity.
  cbn [call]. unfold bind. by rewrite Hset.
Qed.

Lemma setup_cell_unknown_style_witness :
  find_module (without_styles installation) "numpy" = None /\
  find_module (without_styles installation) "pandas" = None /\
  find_module (without_styles installation) "matplotlib.pyplot" = None /\
  find_module (without_styles installation) "matplotlib" = None /\
  module_attr (without_styles installation) "matplotlib" "style" =
    inr (VModule "matplotlib.style") /\
  module_attr (without_styles installation) "matplotlib.style" "use" =
    inr (VFunction FStyleUse) /\
  style_settings (without_styles installation) (VStr "fivethirtyeight") =
    inl (OSError "style not found") /\
  run_cell (without_styles installation) setup_cell fresh =
  (MkKernel (bound_by_setup (ns fresh)) (rcParams fresh) (stdout fresh)
            (canvas fresh), Raised (OSError "style not found")).
Proof.
  repeat (split; [reflexivity|]).
  exact (setup_cell_unknown_style (without_styles installation) fresh
           (OSError "style not found")
           eq_refl eq_refl eq_refl eq_refl eq_refl eq_refl eq_refl).
Defined.

(** X7.  The setup cell reads no name before it binds it: on a given
    installation it ends the same way and prints the same lines from any
    two kernels, whatever they hold. *)
Theorem setup_cell_independent lib k1 k2 :
  (run_cell lib setup_cell k1).2 = (run_cell lib setup_cell k2).2 /\
  printed k1 (run_cell lib setup_cell k1).1 =
  printed k2 (run_cell lib setup_cell k2).1.
Proof.
  destruct (uniform_exec_body lib (body_of setup_cell) k1 k2)
    as (Hst & _ & l & Hl1 & Hl2).
  { intros x Hx. vm_compute in Hx. by apply not_elem_of_nil in Hx. }
  split; [exact Hst|]. unfold printed, setup_cell, run_cell in *.
  cbn [body_of] in Hl1, Hl2. by rewrite Hl1, Hl2, !drop_app_length.
Qed.

Lemma bind_raised {A B} (m : M A) (f : A -> M B) k k' e :
  m k = (k', Raised e) -> bind m f k = (k', Raised e).
Proof. intros H. unfold bind. by rewrite H. Qed.

Lemma bind_unsupported {A B} (m : M A) (f : A -> M B) k k' :
  m k = (k', Unsupported) -> bind m f k = (k', Unsupported).
Proof. intros H. unfold bind. by rewrite H. Qed.

(** [x.a] changes nothing in the kernel, however it ends. *)
Lemma eval_attr_silent lib x a k :
  exists st, eval lib (EAttr (EName x) a) k = (k, st).
Proof.
  cbn [eval]. unfold bind, lookup_name.
  destruct (ns k !! x) as [v|]; [|destruct (builtins x) as [v|]];
    try (by eexists).
  all: destruct v as [| | | |m| |]; cbn [getattr];
    try (destruct (existsb _ _); by eexists).
  all: destruct (module_attr lib m a); by eexists.
Qed.

Lemma prints_heading lib text :
  prints lib (SExpr (ECall (EName "print") [EStr text])).
Proof. intros k Hprint. left. exists text. by apply exec_print_heading. Qed.

Lemma prints_version lib label x attr : prints lib (print_version label x attr).
Proof.
  intros k Hprint. destruct (eval_attr_silent lib x attr k) as [st Hst].
  unfold print_version. cbn [exec].
  change (eval lib (ECall (EName "print") [EStr label; EAttr (EName x) attr])) with
    (let* fv := eval lib (EName "print") in
     let* vs := (let* a := eval lib (EStr label) in
                 let* vs := (let* b := eval lib (EAttr (EName x) attr) in
                             let* vs := ret [] in ret (b :: vs)) in
                 ret (a :: vs)) in
     call lib fv vs).
  destruct st as [v|e|].
  - left. exists (label +:+ " " +:+ to_str lib v).
    rewrite (bind_done _ _ k
               (MkKernel (ns k) (rcParams k)
                         (stdout k ++ [label +:+ " " +:+ to_str lib v])
                         (canvas k)) VNone);
      [reflexivity|].
    rewrite (bind_done _ _ k k _ (eval_print lib k Hprint)).
    rewrite (bind_done _ _ k k [VStr label; v]).
    2:{ rewrite (bind_done _ _ k k (VStr label)) by reflexivity.
        rewrite (bind_done _ _ k k [v]); [reflexivity|].
        by rewrite (bind_done _ _ k k v Hst). }
    reflexivity.
  - right. exists (Raised e). split; [|discriminate].
    apply bind_raised.
    rewrite (bind_done _ _ k k _ (eval_print lib k Hprint)).
    apply bind_raised.
    rewrite (bind_done _ _ k k (VStr label)) by reflexivity.
    apply bind_raised. by apply bind_raised.
  - right. exists Unsupported. split; [|discriminate].
    apply bind_unsupported.
    rewrite (bind_done _ _ k k _ (eval_print lib k Hprint)).
    apply bind_unsupported.
    rewrite (bind_done _ _ k k (VStr label)) by reflexivity.
    apply bind_unsupported. by apply bind_unsupported.
Qed.

(** Statements that only print, run in order. *)
Lemma exec_body_prints lib body k :
  Forall (prints lib) body ->
  ns k !! "print" = None ->
  exists l st,
    exec_body lib body k =
    (MkKernel (ns k) (rcParams k) (stdout k ++ l) (canvas k), st) /\
    length l <= length body.
Proof.
  intros Hbody. revert k. induction Hbody as [|s rest Hs _ IH]; intros k Hprint.
  - exists [], (Done tt). split; [|done]. rewrite app_nil_r. by destruct k.
  - destruct (Hs k Hprint) as [[line Hline]|(st & Hst & Hnot)].
    + rewrite (exec_body_step _ _ _ _ _ Hline).
      destruct (IH (MkKernel (ns k) (rcParams k) (stdout k ++ [line]) (canvas k))
                   Hprint) as (l & st & Hrun & Hlen).
      cbn [ns rcParams stdout canvas] in Hrun.
      exists (line :: l), st. split; [|simpl; lia].
      rewrite Hrun. by rewrite <- app_assoc.
    + exists [], st. split; [|simpl; lia].
      cbn [exec_body]. unfold bind. rewrite Hst, app_nil_r.
      destruct st as [[]| |]; [done|by destruct k..].
Qed.

(** X8.  While [print] is the builtin, the versions cell, however it ends
    and on any installation, changes no name other than [sys], leaves
    [rcParams] and the canvas as they were, and adds at most five lines to
    what was printed. *)
Theorem versions_cell_frame lib k :
  ns k !! "print" = None ->
  let k' := (run_cell lib versions_cell k).1 in
  (forall x, x <> "sys" -> ns k' !! x = ns k !! x) /\
  rcParams k' = rcParams k /\
  canvas k' = canvas k /\
  exists l, stdout k' = (stdout k ++ l)%list /\ length l <= 5.
Proof.
  intros Hprint k'. subst k'. unfold versions_cell, run_cell.
  destruct (find_module lib "sys") as [e|] eqn:Hsys.
  { rewrite (exec_body_stop _ _ _ _ _ _ (exec_import_raises lib _ _ e _ Hsys)).
    cbn [fst]. repeat split; try done.
    exists []. split; [by rewrite app_nil_r | simpl; lia]. }
  rewrite (exec_body_step _ _ _ _ _ (exec_import lib _ _ Hsys)).
  cbn [top_package Ascii.eqb Bool.eqb].
  set (k1 := MkKernel _ _ _ _).
  assert (Hprint1 : ns k1 !! "print" = None)
    by (subst k1; cbn [ns]; by rewrite lookup_insert_ne).
  edestruct (exec_body_prints lib) as (l & st & Hrun & Hlen);
    [|exact Hprint1|rewrite Hrun].
  { repeat (apply Forall_cons_2;
              [first [apply prints_heading | apply prints_version]|]).
    apply Forall_nil_2. }
  subst k1. cbn [fst ns rcParams stdout canvas]. simpl in Hlen.
  repeat split; try done.
  - intros x Hx. by rewrite lookup_insert_ne.
  - by exists l.
Qed.

Lemma versions_cell_frame_witness :
  ns fresh !! "print" = None /\
  let k' := (run_cell installation versions_cell fresh).1 in
  (forall x, x <> "sys" -> ns k' !! x = ns fresh !! x) /\
  rcParams k' = rcParams fresh /\
  canvas k' = canvas fresh /\
  exists l, stdout k' = (stdout fresh ++ l)%list /\ length l <= 5.
Proof.
  assert (Hprint : ns fresh !! "print" = None) by reflexivity.
  split; [exact Hprint|].
  exact (versions_cell_frame installation fresh Hprint).
Defined.

(** X9.  Run before the setup cell, in a kernel where [np] is not bound,
    the versions cell stops at its fourth statement with [NameError] for
    [np]; what it did before stays: [sys] is bound and the heading and
    the Python version are printed. *)
Theorem versions_cell_before_setup lib py k :
  find_module lib "sys" = None ->
  module_attr lib "sys" "version" = inr (VStr py) ->
  ns k !! "print" = None ->
  ns k !! "np" = None ->
  run_cell lib versions_cell k =
  (MkKernel (<["sys" := VModule "sys"]> (ns k)) (rcParams k)
            (stdout k ++ ["Notebook tested using:"; "Python " +:+ py])
            (canvas k),
   Raised (NameError "np")).
Proof.
  intros Hsys Hpy Hprint Hnp. unfold versions_cell, run_cell.
  rewrite (exec_body_step _ _ _ _ _ (exec_import lib _ _ Hsys)).
  cbn [top_package Ascii.eqb Bool.eqb].
  set (ns1 := <["sys" := VModule "sys"]> (ns k)).
  assert (Hprint1 : ns1 !! "print" = None)
    by (subst ns1; by rewrite lookup_insert_ne).
  assert (Hsys1 : ns1 !! "sys" = Some (VModule "sys"))
    by (subst ns1; by rewrite lookup_insert_eq).
  assert (Hnp1 : ns1 !! "np" = None)
    by (subst ns1; by rewrite lookup_insert_ne).
  rewrite (exec_body_step _ _ _ _ _
             (exec_print_heading lib _ (MkKernel ns1 _ _ _) Hprint1)).
  cbn [ns rcParams stdout canvas].
  rewrite (exec_body_step _ _ _ _ _
             (exec_print_version lib _ _ _ _ _
                (MkKernel ns1 _ _ _) Hprint1 Hsys1 Hpy)).
  cbn [ns rcParams stdout canvas].
  rewrite (exec_body_stop _ _ _ _ _ _
             (exec_print_version_unbound lib _ _ _ (MkKernel ns1 _ _ _)
                Hprint1 Hnp1 eq_refl)).
  by rewrite <- app_assoc.
Qed.

Lemma versions_cell_before_setup_witness :
  find_module installation "sys" = None /\
  module_attr installation "sys" "version" = inr (VStr "3.9.4") /\
  ns fresh !! "print" = None /\
  ns fresh !! "np" = None /\
  run_cell installation versions_cell fresh =
  (MkKernel (<["sys" := VModule "sys"]> (ns fresh)) (rcParams fresh)
            (stdout fresh ++ ["Notebook tested using:"; "Python " +:+ "3.9.4"])
            (canvas fresh),
   Raised (NameError "np")).
Proof.
  repeat (split; [reflexivity|]).
  exact (versions_cell_before_setup installation "3.9.4" fresh
           eq_refl eq_refl eq_refl eq_refl).
Defined.

(** Once the first code cell completed, the run of the document is the
    run of its last cell. *)
Lemma run_after_first lib id1 id2 c1 c2 k k1 :
  run_cell lib c1 k = (k1, Done tt) ->
  run lib [Markdown id1; c1; Markdown id2; c2] k = run_cell lib c2 k1.
Proof.
  intros H1. cbn [run].
  rewrite (bind_done _ _ k k tt) by reflexivity.
  rewrite (bind_done _ _ k k1 tt H1).
  rewrite (bind_done _ _ k1 k1 tt) by reflexivity.
  unfold bind. by destruct (run_cell lib c2 k1) as [k2 [[]| |]].
Qed.

(** X10.  The comment of the setup cell calls its second block optional.
    With that block commented out the notebook does not run to the end:
    in a kernel where [mpl] is not bound the versions cell prints the
    heading and the versions of Python and numpy, then stops with
    [NameError] for [mpl], which only the block imports. *)
Theorem unstyled_run_stops lib py npv k :
  find_module lib "numpy" = None ->
  find_module lib "pandas" = None ->
  find_module lib "matplotlib.pyplot" = None ->
  find_module lib "sys" = None ->
  module_attr lib "sys" "version" = inr (VStr py) ->
  module_attr lib "numpy" "__version__" = inr (VStr npv) ->
  ns k !! "print" = None ->
  ns k !! "mpl" = None ->
  run lib brittle_faults_p2_unstyled k =
  (MkKernel (<["sys" := VModule "sys"]>
               (<["plt" := VModule "matplotlib.pyplot"]>
                  (<["pd" := VModule "pandas"]>
                     (<["np" := VModule "numpy"]> (ns k)))))
            (rcParams k)
            (stdout k ++ [ "Notebook tested using:";
                           "Python " +:+ py;
                           "Numpy " +:+ npv ])
            (canvas k),
   Raised (NameError "mpl")).
Proof.
  intros Hnp Hpd Hplt Hsys Hpy Hnpv Hprint Hmpl.
  unfold brittle_faults_p2_unstyled.
  rewrite (run_after_first lib _ _ _ _ k
             (MkKernel (<["plt" := VModule "matplotlib.pyplot"]>
                          (<["pd" := VModule "pandas"]>
                             (<["np" := VModule "numpy"]> (ns k))))
                       (rcParams k) (stdout k) (canvas k))).
  2:{ unfold setup_cell_unstyled, run_cell.
      rewrite (exec_body_step _ _ _ _ _ (exec_import_as lib _ _ _ Hnp)).
      rewrite (exec_body_step _ _ _ _ _ (exec_import_as lib _ _ _ Hpd)).
      by rewrite (exec_body_step _ _ _ _ _ (exec_import_as lib _ _ _ Hplt)). }
  unfold versions_cell, run_cell.
  rewrite (exec_body_step _ _ _ _ _ (exec_import lib _ _ Hsys)).
  cbn [top_package Ascii.eqb Bool.eqb ns rcParams stdout canvas].
  set (ns1 := <["sys" := VModule "sys"]> _).
  assert (Hprint1 : ns1 !! "print" = None) by (subst ns1; lookup_insert).
  assert (Hsys1 : ns1 !! "sys" = Some (VModule "sys")) by (subst ns1; lookup_insert).
  assert (Hnp1 : ns1 !! "np" = Some (VModule "numpy")) by (subst ns1; lookup_insert).
  assert (Hmpl1 : ns1 !! "mpl" = None) by (subst ns1; lookup_insert).
  rewrite (exec_body_step _ _ _ _ _
             (exec_print_heading lib _ (MkKernel ns1 _ _ _) Hprint1)).
  cbn [ns rcParams stdout canvas].
  rewrite (exec_body_step _ _ _ _ _
             (exec_print_version lib _ _ _ _ _
                (MkKernel ns1 _ _ _) Hprint1 Hsys1 Hpy)).
  cbn [ns rcParams stdout canvas].
  rewrite (exec_body_step _ _ _ _ _
             (exec_print_version lib _ _ _ _ _
                (MkKernel ns1 _ _ _) Hprint1 Hnp1 Hnpv)).
  cbn [ns rcParams stdout canvas].
  rewrite (exec_body_stop _ _ _ _ _ _
             (exec_print_version_unbound lib _ _ _ (MkKernel ns1 _ _ _)
                Hprint1 Hmpl1 eq_refl)).
  by rewrite <- !app_assoc.
Qed.

Lemma unstyled_run_stops_witness :
  find_module installation "numpy" = None /\
  find_module installation "pandas" = None /\
  find_module installation "matplotlib.pyplot" = None /\
  find_module installation "sys" = None /\
  module_attr installation "sys" "version" = inr (VStr "3.9.4") /\
  module_attr installation "numpy" "__version__" = inr (VStr "1.20.1") /\
  ns fresh !! "print" = None /\
  ns fresh !! "mpl" = None /\
  run installation brittle_faults_p2_unstyled fresh =
  (MkKernel (<["sys" := VModule "sys"]>
               (<["plt" := VModule "matplotlib.pyplot"]>
                  (<["pd" := VModule "pandas"]>
                     (<["np" := VModule "numpy"]> (ns fresh)))))
            (rcParams fresh)
            (stdout fresh ++ [ "Notebook tested using:";
                               "Python " +:+ "3.9.4";
                               "Numpy " +:+ "1.20.1" ])
            (canvas fresh),
   Raised (NameError "mpl")).
Proof.
  repeat (split; [reflexivity|]).
  exact (unstyled_run_stops installation "3.9.4" "1.20.1" fresh
           eq_refl eq_refl eq_refl eq_refl eq_refl eq_refl eq_refl eq_refl).
Defined.

(** X11.  Running the whole notebook a second time in the same kernel
    completes again, prints the same five lines again and changes nothing
    else: names, [rcParams] and canvas are those of the first run. *)
Theorem rerun_changes_nothing lib k :
  supports lib ->
  ns k !! "print" = None ->
  let r1 := run lib brittle_faults_p2 k in
  let r2 := run lib brittle_faults_p2 r1.1 in
  r2.2 = Done tt /\
  ns r2.1 = ns r1.1 /\
  rcParams r2.1 = rcParams r1.1 /\
  canvas r2.1 = canvas r1.1 /\
  printed r1.1 r2.1 = printed k r1.1.
Proof.
  intros Hlib Hprint r1 r2.
  destruct (style_known lib Hlib) as (settings & Hset & _).
  (* first run *)
  destruct (setup_explicit lib settings k Hlib Hset)
    as (w1 & w2 & w3 & Hw1 & Hw2 & Hw3 & Hvalid & Hsetup).
  set (k1 := MkKernel _ _ _ _) in Hsetup.
  assert (Hnames1 : ns k1 !! "print" = None /\
                    ns k1 !! "np" = Some (VModule "numpy") /\
                    ns k1 !! "mpl" = Some (VModule "matplotlib") /\
                    ns k1 !! "pd" = Some (VModule "pandas")).
  { subst k1. unfold bound_by_setup. cbn [ns]. repeat split; lookup_insert. }
  destruct Hnames1 as (Hp1 & Hnp1 & Hmpl1 & Hpd1).
  destruct (versions_effect lib k1 Hlib Hp1 Hnp1 Hmpl1 Hpd1)
    as (py & npv & mplv & pdv & Hpy & Hnpv & Hmplv & Hpdv & Hversions).
  set (k2 := MkKernel _ _ _ _) in Hversions.
  assert (Hr1 : r1 = (k2, Done tt)).
  { subst r1. unfold brittle_faults_p2.
    by rewrite (run_after_first lib _ _ _ _ k k1 Hsetup). }
  (* second run *)
  destruct (setup_explicit lib settings k2 Hlib Hset)
    as (w1' & w2' & w3' & Hw1' & Hw2' & Hw3' & _ & Hsetup').
  assert (w1' = w1) as -> by congruence.
  assert (w2' = w2) as -> by congruence.
  assert (w3' = w3) as -> by congruence.
  assert (Hns2 : bound_by_setup (ns k2) = ns k2).
  { subst k2 k1. unfold bound_by_setup. cbn [ns].
    do 4 (rewrite insert_id by lookup_insert). reflexivity. }
  assert (Hrc2 : coloured w1 w2 w3 (styled lib settings (rcParams k2)) =
                 rcParams k2).
  { subst k2 k1. cbn [rcParams]. by apply coloured_styled_again. }
  rewrite Hns2, Hrc2 in Hsetup'.
  set (k3 := MkKernel _ _ _ _) in Hsetup'.
  assert (Hnames3 : ns k3 !! "print" = None /\
                    ns k3 !! "np" = Some (VModule "numpy") /\
                    ns k3 !! "mpl" = Some (VModule "matplotlib") /\
                    ns k3 !! "pd" = Some (VModule "pandas")).
  { subst k3 k2. cbn [ns]. repeat split; lookup_insert. }
  destruct Hnames3 as (Hp3 & Hnp3 & Hmpl3 & Hpd3).
  destruct (versions_effect lib k3 Hlib Hp3 Hnp3 Hmpl3 Hpd3)
    as (py' & npv' & mplv' & pdv' & Hpy' & Hnpv' & Hmplv' & Hpdv' & Hversions').
  assert (py' = py) as -> by congruence.
  assert (npv' = npv) as -> by congruence.
  assert (mplv' = mplv) as -> by congruence.
  assert (pdv' = pdv) as -> by congruence.
  assert (Hr2 : r2 = run_cell lib versions_cell k3).
  { subst r2. rewrite Hr1. cbn [fst]. unfold brittle_faults_p2.
    by rewrite (run_after_first lib _ _ _ _ k2 k3 Hsetup'). }
  rewrite Hr2, Hversions', Hr1. cbn [fst snd].
  subst k3 k2 k1. cbn [ns rcParams stdout canvas].
  split; [reflexivity|]. split; [by rewrite insert_id by lookup_insert|].
  split; [reflexivity|]. split; [reflexivity|].
  unfold printed. cbn [stdout]. by rewrite !drop_app_length.
Qed.

Lemma rerun_changes_nothing_witness :
  supports installation /\ ns fresh !! "print" = None /\
  let r1 := run installation brittle_faults_p2 fresh in
  let r2 := run installation brittle_faults_p2 r1.1 in
  r2.2 = Done tt /\
  ns r2.1 = ns r1.1 /\
  rcParams r2.1 = rcParams r1.1 /\
  canvas r2.1 = canvas r1.1 /\
  printed r1.1 r2.1 = printed fresh r1.1.
Proof.
  assert (Hprint : ns fresh !! "print" = None) by reflexivity.
  split; [exact installation_supports|]. split; [exact Hprint|].
  exact (rerun_changes_nothing installation fresh installation_supports Hprint).
Defined.

(** X12.  The versions cell reads the kernel through [print], [np], [mpl]
    and [pd] only ([sys] it binds itself): from two kernels that agree on
    these four names it ends the same way and prints the same lines. *)
Theorem versions_cell_reads lib k1 k2 :
  agree ["print"; "np"; "mpl"; "pd"] k1 k2 ->
  (run_cell lib versions_cell k1).2 = (run_cell lib versions_cell k2).2 /\
  printed k1 (run_cell lib versions_cell k1).1 =
  printed k2 (run_cell lib versions_cell k2).1.
Proof.
  intros Hag.
  destruct (uniform_exec_body lib (body_of versions_cell) k1 k2)
    as (Hst & _ & l & Hl1 & Hl2).
  { intros x Hx. apply Hag.
    assert (Hfree : free_names (body_of versions_cell) =
                    ["print"; "print"; "print"; "np"; "print"; "mpl";
                     "print"; "pd"]) by reflexivity.
    rewrite Hfree in Hx. set_solver. }
  split; [exact Hst|]. unfold printed, versions_cell, run_cell in *.
  cbn [body_of] in Hl1, Hl2. by rewrite Hl1, Hl2, !drop_app_length.
Qed.

Lemma versions_cell_reads_witness :
  let other :=
    MkKernel {[ "sys" := VStr "shadowed" ]} {[ "axes.facecolor" := "black" ]}
             ["earlier output"] [Figure [] ["note"]] in
  agree ["print"; "np"; "mpl"; "pd"] fresh other /\
  (run_cell installation versions_cell fresh).2 =
  (run_cell installation versions_cell other).2 /\
  printed fresh (run_cell installation versions_cell fresh).1 =
  printed other (run_cell installation versions_cell other).1.
Proof.
  intros other.
  assert (Hag : agree ["print"; "np"; "mpl"; "pd"] fresh other).
  { intros x Hx. apply list_elem_of_In in Hx. simpl in Hx.
    destruct Hx as [<-|[<-|[<-|[<-|[]]]]]; reflexivity. }
  split; [exact Hag|].
  exact (versions_cell_reads installation fresh other Hag).
Defined.

End EffectsFacts.

(** ** More on the laws of the markdown cell *)

Module FormulasMore.
Import Formulas.
Local Open Scope R_scope.

(** X13.  "The higher the fluid pore pressure, the smaller the fault
    shear strength": with a positive friction coefficient the
    effective-stress form is strictly decreasing in [P_f]. *)
Theorem hubbert_rubey_eff_decreasing C_0 mu sigma_n P_f1 P_f2 :
  mu > 0 -> P_f1 < P_f2 ->
  hubbert_rubey_eff C_0 mu sigma_n P_f1 > hubbert_rubey_eff C_0 mu sigma_n P_f2.
Proof.
  intros Hmu Hlt. unfold hubbert_rubey_eff.
  assert (Hstep : mu * (sigma_n - P_f2) < mu * (sigma_n - P_f1)).
  { apply Rmult_lt_compat_l; lra. }
  lra.
Qed.

Lemma hubbert_rubey_eff_decreasing_witness :
  3 / 5 > 0 /\ 40 < 90 /\
  hubbert_rubey_eff 5 (3 / 5) 100 40 > hubbert_rubey_eff 5 (3 / 5) 100 90.
Proof.
  assert (Hmu : 3 / 5 > 0) by lra.
  assert (Hlt : 40 < 90) by lra.
  repeat split; try assumption.
  exact (hubbert_rubey_eff_decreasing 5 (3 / 5) 100 40 90 Hmu Hlt).
Defined.

(** X14.  The ratio form "holds for the cases when" [sigma_L] is
    [sigma_n]: with friction and pore pressure not zero, the two forms of
    the law give the same strength exactly when the lithostatic stress
    equals the normal stress. *)
Theorem forms_agree_iff C_0 mu sigma_n sigma_L P_f :
  mu <> 0 -> P_f <> 0 -> sigma_L <> 0 ->
  (hubbert_rubey_eff C_0 mu sigma_n P_f =
   hubbert_rubey C_0 mu sigma_n (pore_pressure_ratio P_f sigma_L)
   <-> sigma_L = sigma_n).
Proof.
  intros Hmu HPf HsL.
  unfold hubbert_rubey_eff, hubbert_rubey, pore_pressure_ratio. split.
  - intros H.
    assert (H' : mu * P_f = mu * sigma_n * (P_f / sigma_L)) by lra.
    apply (Rmult_eq_reg_l (mu * P_f)); [|by apply Rmult_integral_contrapositive].
    replace (mu * P_f * sigma_L) with (mu * sigma_n * (P_f / sigma_L) * sigma_L)
      by (rewrite <- H'; ring).
    by field.
  - intros <-. by field.
Qed.

Lemma forms_agree_iff_witness :
  3 / 5 <> 0 /\ 40 <> 0 /\ 100 <> 0 /\
  (hubbert_rubey_eff 5 (3 / 5) 80 40 =
   hubbert_rubey 5 (3 / 5) 80 (pore_pressure_ratio 40 100)
   <-> 100 = 80).
Proof.
  assert (Hmu : 3 / 5 <> 0) by lra.
  assert (HPf : 40 <> 0) by lra.
  assert (HsL : 100 <> 0) by lra.
  repeat (split; [assumption|]).
  exact (forms_agree_iff 5 (3 / 5) 80 100 40 Hmu HPf HsL).
Defined.

(** X15.  With friction and normal stress not zero, the fault is held by
    its cohesion alone exactly when the pore-pressure ratio is one. *)
Theorem strength_is_cohesion_iff C_0 mu sigma_n lambda :
  mu <> 0 -> sigma_n <> 0 ->
  (hubbert_rubey C_0 mu sigma_n lambda = C_0 <-> lambda = 1).
Proof.
  intros Hmu Hsn. unfold hubbert_rubey. split.
  - intros H.
    assert (H' : mu * sigma_n * (1 - lambda) = 0) by lra.
    apply Rmult_integral in H' as [H'|H']; [|lra].
    apply Rmult_integral in H' as [H'|H']; contradiction.
  - intros ->. ring.
Qed.

Lemma strength_is_cohesion_iff_witness :
  3 / 5 <> 0 /\ 100 <> 0 /\
  (hubbert_rubey 5 (3 / 5) 100 1 = 5 <-> 1 = 1).
Proof.
  assert (Hmu : 3 / 5 <> 0) by lra.
  assert (Hsn : 100 <> 0) by lra.
  repeat (split; [assumption|]).
  exact (strength_is_cohesion_iff 5 (3 / 5) 100 1 Hmu Hsn).
Defined.

End FormulasMore.

(** ** Exceptions of the installation, and what a run leaves behind *)

Module RequestsFacts.
Import Kernel Cells Analysis MonadFacts CellsFacts Notebook Installed Effects.
Import Requests NotebookFacts EffectsFacts.
Local Open Scope string_scope.
Local Open Scope list_scope.
#[local] Set Warnings "-clear-no-such-hyp".



















(** What the outcome is on three installations: the sample one, one
    without pandas, one whose matplotlib knows no style. *)
Example outcome_installed :
  outcome installation (setup_requests installation ++ versions_requests) =
  Done tt.
Proof. reflexivity. Qed.

Example outcome_without_pandas :
  outcome (without "pandas" installation)
          (setup_requests (without "pandas" installation) ++ versions_requests) =
  Raised (ModuleNotFoundError "pandas").
Proof. reflexivity. Qed.

Example outcome_without_styles :
  outcome (without_styles installation)
          (setup_requests (without_styles installation) ++ versions_requests) =
  Raised (OSError "style not found").
Proof. reflexivity. Qed.


Lemma left_behind_is_overwritten :
  ~ writes_nothing_left installation brittle_faults_p2.
Proof.
  intros H. destruct (H left_behind) as [Hns _].
  specialize (Hns "np" (VStr "other") eq_refl).
  vm_compute in Hns. discriminate Hns.
Qed.




End RequestsFacts.
